(** * sweejs: the Node.js binding of the Sweep LIDAR driver

    A shallow embedding of [src/sweejs/sweejs.cc].  The binding wraps the C
    driver (libsweep) in a JavaScript class [Sweep]; every method is a
    [NAN_METHOD] that unwraps the native object, checks the shape of its
    arguments, calls one driver function and turns a driver error into a
    JavaScript exception.  [scan] queues an [AsyncScanWorker] whose
    [Execute] runs on the thread pool and whose completion handler runs on
    the main loop.

    The driver is an interface (a record of functions over an abstract
    driver state); the binding is written in a state monad over a
    [machine] that holds the driver state, the log of driver calls, the
    native heap (wrapped [Sweep] objects, [shared_ptr] use counts), the
    outstanding workers and the log of continuation calls. *)

From Stdlib Require Import ZArith NArith Lia.
From stdpp Require Import base option list gmap strings.

Local Open Scope Z_scope.

(** ** Native pointers *)

Abbreviation ptr := N.

Definition nullptr : ptr := 0%N.

(** [if (p)] of C++ is [negb (is_null p)]. *)
Definition is_null (p : ptr) : bool := (p =? 0)%N.

(** ** JavaScript values *)

(** A double: [Finite m e] is [m * 2^e]. *)
Inductive number :=
| Finite (m e : Z)
| NaN
| Infinity (negative : bool).

(** The double a C integer converts to. *)
Definition number_of_int (z : Z) : number := Finite z 0.

(** Truncation towards zero; NaN and the infinities go to 0 (ECMAScript
    ToInt32, first steps). *)
Definition truncate (x : number) : Z :=
  match x with
  | Finite m e => if 0 <=? e then m * 2 ^ e else Z.quot m (2 ^ (- e))
  | NaN => 0
  | Infinity _ => 0
  end.

(** Reduction modulo 2^32 into the signed 32-bit range. *)
Definition wrap_int32 (z : Z) : Z :=
  let r := z mod 2 ^ 32 in
  if r <? 2 ^ 31 then r else r - 2 ^ 32.

Definition number_to_int32 (x : number) : Z := wrap_int32 (truncate x).

Abbreviation objref := nat.

#[warnings="-register-all"]
Inductive value :=
| VUndefined
| VNull
| VBoolean (b : bool)
| VNumber (n : number)
| VString (s : string)
| VFunction (f : nat)
| VSweep (o : objref)
| VObject (props : list (string * value))
| VArray (elems : list (option value))
| VError (msg : string)
| VTypeError (msg : string).

Definition IsString (v : value) : bool :=
  match v with VString _ => true | _ => false end.

Definition IsNumber (v : value) : bool :=
  match v with VNumber _ => true | _ => false end.

Definition IsFunction (v : value) : bool :=
  match v with VFunction _ => true | _ => false end.

(** [Nan::Set(obj, key, v)] on a plain object: overwrite the property when
    it exists, append it otherwise. *)
Fixpoint props_set (props : list (string * value)) (key : string) (v : value)
  : list (string * value) :=
  match props with
  | [] => [(key, v)]
  | (k, old) :: rest =>
      if String.eqb k key then (k, v) :: rest else (k, old) :: props_set rest key v
  end.

(** [Nan::New<v8::Array>(n)]: [n] holes; a negative length gives the empty
    array. *)
Definition array_new (n : Z) : list (option value) := replicate (Z.to_nat n) None.

(** [Nan::Set(array, i, v)]: in range the slot is overwritten, out of range
    the array grows, with holes up to [i]. *)
Definition array_set (elems : list (option value)) (i : nat) (v : value)
  : list (option value) :=
  if decide (i < length elems)%nat then <[i := Some v]> elems
  else elems ++ replicate (i - length elems) None ++ [Some v].

(** ** The driver interface (sweep.h)

    Every driver function takes the driver state and returns the new one.
    An error out-parameter [sweep_error_s*] is returned next to the result:
    [nullptr] means no error.  The accessors of a scan and of an error read
    the driver state. *)

Record Driver := {
  world : Type;
  sweep_device_construct_simple : world -> ptr * ptr * world;
  sweep_device_construct : string -> Z -> Z -> world -> ptr * ptr * world;
  sweep_device_destruct : ptr -> world -> world;
  sweep_device_start_scanning : ptr -> world -> ptr * world;
  sweep_device_stop_scanning : ptr -> world -> ptr * world;
  sweep_device_get_scan : ptr -> Z -> world -> ptr * ptr * world;
  sweep_scan_get_number_of_samples : ptr -> world -> Z;
  (* the C value, as the double it converts to in Nan::New<v8::Number> *)
  sweep_scan_get_angle : ptr -> Z -> world -> number;
  sweep_scan_get_distance : ptr -> Z -> world -> number;
  sweep_device_get_motor_speed : ptr -> world -> Z * ptr * world;
  sweep_device_set_motor_speed : ptr -> Z -> world -> ptr * world;
  sweep_device_get_sample_rate : ptr -> world -> Z * ptr * world;
  sweep_device_reset : ptr -> world -> ptr * world;
  sweep_error_message : ptr -> world -> string;
  sweep_error_destruct : ptr -> world -> world
}.

(** The log of driver calls, oldest first. *)
Inductive event :=
| EvConstructSimple
| EvConstruct (port : string) (baudrate timeout : Z)
| EvDestruct (dev : ptr)
| EvStartScanning (dev : ptr)
| EvStopScanning (dev : ptr)
| EvGetScan (dev : ptr) (timeout : Z)
| EvNumberOfSamples (scan : ptr)
| EvAngle (scan : ptr) (i : Z)
| EvDistance (scan : ptr) (i : Z)
| EvGetMotorSpeed (dev : ptr)
| EvSetMotorSpeed (dev : ptr) (hz : Z)
| EvGetSampleRate (dev : ptr)
| EvReset (dev : ptr)
| EvErrorMessage (err : ptr)
| EvErrorDestruct (err : ptr).

(** ** Native objects *)

(** [std::shared_ptr<::sweep_device>] with the deleter
    [sweep_device_destruct]: the stored pointer and its control block. *)
Record shared_ptr := { sp_get : ptr; sp_ctrl : nat }.

(** Modelled from the spec: the class declaration of [Sweep] is in
    sweejs.h, which is not among the sources.  The constructors assign a
    [std::shared_ptr<::sweep_device>] to the member [device] and every
    method reads [device.get()]; the spec's Session "composes exactly one
    DeviceHandle". *)
Record Sweep := { device : shared_ptr }.

(** The worker of [Sweep::scan].  [errmsg] is the [errmsg_] of
    [Nan::AsyncWorker], [callback] the function of its [Nan::Callback];
    [sweep] is the [Sweep&]: the address of the native object, which is
    the object the JavaScript holder wraps. *)
Module AsyncScanWorker.

Record t := {
  callback : nat;
  errmsg : option string;
  sweep : objref;
  timeout : Z;
  scan : ptr
}.

(** [scan = ...] in [Execute]. *)
Definition set_scan (sc : ptr) (w : t) : t :=
  {| callback := callback w; errmsg := errmsg w; sweep := sweep w;
     timeout := timeout w; scan := sc |}.

(** [Nan::AsyncWorker::SetErrorMessage]: the message is copied. *)
Definition SetErrorMessage (msg : string) (w : t) : t :=
  {| callback := callback w; errmsg := Some msg; sweep := sweep w;
     timeout := timeout w; scan := scan w |}.

End AsyncScanWorker.

(** Where a queued worker is: waiting for the thread pool, or executed and
    waiting for the main loop to complete it. *)
Inductive phase := Queued | Executed.

(** [info] of a [NAN_METHOD]. *)
Record FunctionCallbackInfo := {
  args : list value;
  Holder : objref;
  This : objref;
  IsConstructCall : bool
}.

(** [info[i]]: out of range it is [undefined]. *)
Definition arg (info : FunctionCallbackInfo) (i : nat) : value :=
  default VUndefined (args info !! i).

(** What a [NAN_METHOD] leaves behind: the return value it set and the
    exception it scheduled. *)
Record completion := { return_value : value; exception : option value }.

Definition returns (v : value) : completion :=
  {| return_value := v; exception := None |}.

Definition throws (e : value) : completion :=
  {| return_value := VUndefined; exception := Some e |}.

Section Binding.

Context (D : Driver).

(** V8's ToNumber on strings and objects (the string grammar, ToPrimitive
    running user code) is outside the binding; [None] when the conversion
    throws. *)
Variable engine_to_number : value -> option number.

Definition to_number (v : value) : option number :=
  match v with
  | VUndefined => Some NaN
  | VNull => Some (Finite 0 0)
  | VBoolean b => Some (Finite (if b then 1 else 0) 0)
  | VNumber n => Some n
  | _ => engine_to_number v
  end.

(** [Nan::To<int32_t>(v)]. *)
Definition To_int32 (v : value) : option Z := number_to_int32 <$> to_number v.

(** [Nan::Utf8String s{v}; *s]: the bytes of a string; [New] reaches it
    only behind [IsString], where the conversion does not fail. *)
Definition Utf8String (v : value) : option string :=
  match v with VString s => Some s | _ => None end.

(** ** The machine *)

Record machine := {
  m_world : world D;
  m_trace : list event;
  (* use counts of the shared_ptr control blocks *)
  m_use_count : gmap nat nat;
  m_next_ctrl : nat;
  (* ObjectWrap: the native object each JavaScript object wraps *)
  m_wrapped : gmap objref Sweep;
  m_next_object : objref;
  (* workers handed to AsyncQueueWorker and not yet destroyed *)
  m_workers : gmap nat (phase * AsyncScanWorker.t);
  m_next_worker : nat;
  (* calls of continuations, oldest first *)
  m_calls : list (nat * list value)
}.

Definition with_world (w : world D) (ev : event) (m : machine) : machine :=
  {| m_world := w; m_trace := m_trace m ++ [ev];
     m_use_count := m_use_count m; m_next_ctrl := m_next_ctrl m;
     m_wrapped := m_wrapped m; m_next_object := m_next_object m;
     m_workers := m_workers m; m_next_worker := m_next_worker m;
     m_calls := m_calls m |}.

Definition with_use_count (u : gmap nat nat) (next : nat) (m : machine) : machine :=
  {| m_world := m_world m; m_trace := m_trace m;
     m_use_count := u; m_next_ctrl := next;
     m_wrapped := m_wrapped m; m_next_object := m_next_object m;
     m_workers := m_workers m; m_next_worker := m_next_worker m;
     m_calls := m_calls m |}.

Definition with_wrapped (o : gmap objref Sweep) (next : objref) (m : machine) : machine :=
  {| m_world := m_world m; m_trace := m_trace m;
     m_use_count := m_use_count m; m_next_ctrl := m_next_ctrl m;
     m_wrapped := o; m_next_object := next;
     m_workers := m_workers m; m_next_worker := m_next_worker m;
     m_calls := m_calls m |}.

Definition with_workers (ws : gmap nat (phase * AsyncScanWorker.t)) (next : nat)
    (m : machine) : machine :=
  {| m_world := m_world m; m_trace := m_trace m;
     m_use_count := m_use_count m; m_next_ctrl := m_next_ctrl m;
     m_wrapped := m_wrapped m; m_next_object := m_next_object m;
     m_workers := ws; m_next_worker := next;
     m_calls := m_calls m |}.

Definition with_call (f : nat) (argv : list value) (m : machine) : machine :=
  {| m_world := m_world m; m_trace := m_trace m;
     m_use_count := m_use_count m; m_next_ctrl := m_next_ctrl m;
     m_wrapped := m_wrapped m; m_next_object := m_next_object m;
     m_workers := m_workers m; m_next_worker := m_next_worker m;
     m_calls := m_calls m ++ [(f, argv)] |}.

(** State and abort: [None] is undefined behaviour or a process abort (a
    dangling reference, [Unwrap] of an object that wraps nothing,
    [FromJust] of [Nothing]). *)
Definition M (A : Type) : Type := machine -> option (A * machine).

Definition ret {A} (a : A) : M A := fun m => Some (a, m).

Definition bind {A B} (c : M A) (k : A -> M B) : M B :=
  fun m => match c m with
           | Some (a, m') => k a m'
           | None => None
           end.

Definition abort {A} : M A := fun _ => None.

Notation "'let!' x ':=' c 'in' k" := (bind c (fun x => k))
  (at level 10, x pattern, c at level 100, k at level 200).
Notation "c ;;; k" := (bind c (fun _ => k))
  (at level 100, k at level 200, right associativity).

Definition FromJust {A} (o : option A) : M A :=
  match o with Some a => ret a | None => abort end.

(** *** Driver calls, logged *)

Definition call_construct_simple : M (ptr * ptr) :=
  fun m => let '(dev, err, w) := sweep_device_construct_simple D (m_world m) in
           Some ((dev, err), with_world w EvConstructSimple m).

Definition call_construct (port : string) (baudrate tmo : Z) : M (ptr * ptr) :=
  fun m => let '(dev, err, w) := sweep_device_construct D port baudrate tmo (m_world m) in
           Some ((dev, err), with_world w (EvConstruct port baudrate tmo) m).

Definition call_destruct (dev : ptr) : M unit :=
  fun m => Some (tt, with_world (sweep_device_destruct D dev (m_world m)) (EvDestruct dev) m).

Definition call_start_scanning (dev : ptr) : M ptr :=
  fun m => let '(err, w) := sweep_device_start_scanning D dev (m_world m) in
           Some (err, with_world w (EvStartScanning dev) m).

Definition call_stop_scanning (dev : ptr) : M ptr :=
  fun m => let '(err, w) := sweep_device_stop_scanning D dev (m_world m) in
           Some (err, with_world w (EvStopScanning dev) m).

Definition call_get_scan (dev : ptr) (tmo : Z) : M (ptr * ptr) :=
  fun m => let '(sc, err, w) := sweep_device_get_scan D dev tmo (m_world m) in
           Some ((sc, err), with_world w (EvGetScan dev tmo) m).

Definition call_number_of_samples (sc : ptr) : M Z :=
  fun m => Some (sweep_scan_get_number_of_samples D sc (m_world m),
                 with_world (m_world m) (EvNumberOfSamples sc) m).

Definition call_angle (sc : ptr) (i : Z) : M number :=
  fun m => Some (sweep_scan_get_angle D sc i (m_world m),
                 with_world (m_world m) (EvAngle sc i) m).

Definition call_distance (sc : ptr) (i : Z) : M number :=
  fun m => Some (sweep_scan_get_distance D sc i (m_world m),
                 with_world (m_world m) (EvDistance sc i) m).

Definition call_get_motor_speed (dev : ptr) : M (Z * ptr) :=
  fun m => let '(speed, err, w) := sweep_device_get_motor_speed D dev (m_world m) in
           Some ((speed, err), with_world w (EvGetMotorSpeed dev) m).

Definition call_set_motor_speed (dev : ptr) (hz : Z) : M ptr :=
  fun m => let '(err, w) := sweep_device_set_motor_speed D dev hz (m_world m) in
           Some (err, with_world w (EvSetMotorSpeed dev hz) m).

Definition call_get_sample_rate (dev : ptr) : M (Z * ptr) :=
  fun m => let '(rate, err, w) := sweep_device_get_sample_rate D dev (m_world m) in
           Some ((rate, err), with_world w (EvGetSampleRate dev) m).

Definition call_reset (dev : ptr) : M ptr :=
  fun m => let '(err, w) := sweep_device_reset D dev (m_world m) in
           Some (err, with_world w (EvReset dev) m).

Definition call_error_message (err : ptr) : M string :=
  fun m => Some (sweep_error_message D err (m_world m),
                 with_world (m_world m) (EvErrorMessage err) m).

Definition call_error_destruct (err : ptr) : M unit :=
  fun m => Some (tt, with_world (sweep_error_destruct D err (m_world m))
                                (EvErrorDestruct err) m).

(** *** shared_ptr and ObjectWrap *)

(** [std::shared_ptr<::sweep_device> arc{devptr, deleter}]: a new control
    block with use count 1. *)
Definition shared_ptr_new (devptr : ptr) : M shared_ptr :=
  fun m => let c := m_next_ctrl m in
           Some ({| sp_get := devptr; sp_ctrl := c |},
                 with_use_count (<[c := 1%nat]> (m_use_count m)) (S c) m).

(** The destructor of a [shared_ptr]: the use count drops by one, and the
    last owner runs the deleter, [sweep_device_destruct], on the stored
    pointer.  Releasing a control block that is gone is undefined. *)
Definition shared_ptr_release (p : shared_ptr) : M unit :=
  fun m => match m_use_count m !! sp_ctrl p with
           | Some (S (S n)) =>
               Some (tt, with_use_count (<[sp_ctrl p := S n]> (m_use_count m))
                                        (m_next_ctrl m) m)
           | Some 1%nat =>
               call_destruct (sp_get p)
                 (with_use_count (delete (sp_ctrl p) (m_use_count m)) (m_next_ctrl m) m)
           | _ => None
           end.

(** [Nan::ObjectWrap::Unwrap<Sweep>(obj)]. *)
Definition Unwrap (o : objref) : M Sweep :=
  fun m => match m_wrapped m !! o with
           | Some self => Some (self, m)
           | None => None
           end.

(** [self->Wrap(obj)]. *)
Definition Wrap (o : objref) (self : Sweep) : M unit :=
  fun m => Some (tt, with_wrapped (<[o := self]> (m_wrapped m)) (m_next_object m) m).

(** A fresh JavaScript object, as [NewInstance] allocates one. *)
Definition new_object : M objref :=
  fun m => let o := m_next_object m in
           Some (o, with_wrapped (m_wrapped m) (S o) m).

(** Modelled from the spec: the destructor of [Sweep] is declared in
    sweejs.h (or implicit), which is not among the sources.  "Session:
    destroyed (releasing the DeviceHandle) when the caller discards it":
    the garbage collector finalizes the JavaScript object, ObjectWrap
    deletes the native object, and the member [device] is released. *)
Definition Sweep_finalize (o : objref) : M unit :=
  let! self := Unwrap o in
  (fun m => Some (tt, with_wrapped (delete o (m_wrapped m)) (m_next_object m) m)) ;;;
  shared_ptr_release (device self).

(** *** The wrapper object *)

(** [throw SweepError{what}] or the constructed object. *)
Definition Sweep_simple : M (string + Sweep) :=
  let! (devptr, error) := call_construct_simple in
  if negb (is_null error) then
    ret (inl "device construction failed"%string)
  else
    let! arc := shared_ptr_new devptr in
    ret (inr {| device := arc |}).

Definition Sweep_config (port : string) (baudrate tmo : Z) : M (string + Sweep) :=
  let! (devptr, error) := call_construct port baudrate tmo in
  if negb (is_null error) then
    ret (inl "device construction failed"%string)
  else
    let! arc := shared_ptr_new devptr in
    ret (inr {| device := arc |}).

(** *** NAN bindings *)

Definition ThrowTypeError (msg : string) : M completion :=
  ret (throws (VTypeError msg)).

Definition ThrowError (msg : string) : M completion :=
  ret (throws (VError msg)).

(** The construct-call branch of [Sweep::New]. *)
Definition New_construct (info : FunctionCallbackInfo) (simple config : bool)
  : M completion :=
  let wrap (r : string + Sweep) : M completion :=
    match r with
    | inl what => ThrowError what
    | inr self => Wrap (This info) self ;;; ret (returns (VSweep (This info)))
    end in
  if simple then
    let! r := Sweep_simple in wrap r
  else if config then
    match Utf8String (arg info 0) with
    | None => ThrowError "UTF-8 conversion error for serial port string"
    | Some port =>
        let! baudrate := FromJust (To_int32 (arg info 1)) in
        let! tmo := FromJust (To_int32 (arg info 2)) in
        let! r := Sweep_config port baudrate tmo in wrap r
    end
  else ThrowError "Unable to create device".

Definition New_shape (info : FunctionCallbackInfo) : bool * bool :=
  ((length (args info) =? 0)%nat,
   (length (args info) =? 3)%nat && IsString (arg info 0)
     && IsNumber (arg info 1) && IsNumber (arg info 2)).

(** [Sweep::New].  Called without [new], it constructs a new instance with
    no arguments. *)
Definition New (info : FunctionCallbackInfo) : M completion :=
  let (simple, config) := New_shape info in
  if negb simple && negb config then
    ThrowTypeError "No arguments for auto-detection or serial port, baudrate, timeout expected"
  else if IsConstructCall info then
    New_construct info simple config
  else
    let! o := new_object in
    let inner := {| args := []; Holder := o; This := o; IsConstructCall := true |} in
    let! r := New_construct inner true false in
    ret {| return_value := return_value r; exception := exception r |}.

(** The tail shared by the methods: [if (error) { ThrowError(message);
    destruct; }], then the value returned without an error. *)
Definition report (error : ptr) (ok : value) : M completion :=
  if negb (is_null error) then
    let! msg := call_error_message error in
    call_error_destruct error ;;;
    ThrowError msg
  else ret (returns ok).

Definition startScanning (info : FunctionCallbackInfo) : M completion :=
  let! self := Unwrap (Holder info) in
  if negb (length (args info) =? 0)%nat then ThrowTypeError "No arguments expected"
  else
    let! error := call_start_scanning (sp_get (device self)) in
    report error VUndefined.

Definition stopScanning (info : FunctionCallbackInfo) : M completion :=
  let! self := Unwrap (Holder info) in
  if negb (length (args info) =? 0)%nat then ThrowTypeError "No arguments expected"
  else
    let! error := call_stop_scanning (sp_get (device self)) in
    report error VUndefined.

Definition getMotorSpeed (info : FunctionCallbackInfo) : M completion :=
  let! self := Unwrap (Holder info) in
  if negb (length (args info) =? 0)%nat then ThrowTypeError "No arguments expected"
  else
    let! (speed, error) := call_get_motor_speed (sp_get (device self)) in
    report error (VNumber (number_of_int speed)).

Definition setMotorSpeed (info : FunctionCallbackInfo) : M completion :=
  let! self := Unwrap (Holder info) in
  if negb (length (args info) =? 1)%nat && negb (IsNumber (arg info 0)) then
    ThrowTypeError "Motor speed in Hz as number expected"
  else
    let! speed := FromJust (To_int32 (arg info 0)) in
    let! error := call_set_motor_speed (sp_get (device self)) speed in
    report error VUndefined.

Definition getSampleRate (info : FunctionCallbackInfo) : M completion :=
  let! self := Unwrap (Holder info) in
  if negb (length (args info) =? 0)%nat then ThrowTypeError "No arguments expected"
  else
    let! (rate, error) := call_get_sample_rate (sp_get (device self)) in
    report error (VNumber (number_of_int rate)).

Definition reset (info : FunctionCallbackInfo) : M completion :=
  let! self := Unwrap (Holder info) in
  if negb (length (args info) =? 0)%nat then ThrowTypeError "No arguments expected"
  else
    let! error := call_reset (sp_get (device self)) in
    report error VUndefined.

(** [Nan::AsyncQueueWorker(worker)]: the worker waits for the thread
    pool. *)
Definition AsyncQueueWorker (w : AsyncScanWorker.t) : M unit :=
  fun m => let id := m_next_worker m in
           Some (tt, with_workers (<[id := (Queued, w)]> (m_workers m)) (S id) m).

(** [callback->Call(argc, argv)]. *)
Definition Call (f : nat) (argv : list value) : M unit :=
  fun m => Some (tt, with_call f argv m).

(** [AsyncScanWorker::Execute], on the thread pool.  [sweep.device] goes
    through the reference to the native object: when that object is gone
    the reference dangles. *)
Definition Execute (w : AsyncScanWorker.t) : M AsyncScanWorker.t :=
  let! self := Unwrap (AsyncScanWorker.sweep w) in
  let! (sc, error) := call_get_scan (sp_get (device self)) (AsyncScanWorker.timeout w) in
  let w := AsyncScanWorker.set_scan sc w in
  if negb (is_null error) then
    let! msg := call_error_message error in
    call_error_destruct error ;;;
    ret (AsyncScanWorker.SetErrorMessage msg w)
  else ret w.

(** The loop of [HandleOKCallback]: [for (int32_t i = 0; i < n; ++i)],
    entered at [i] with [fuel] iterations allowed. *)
Fixpoint fill_samples (sc : ptr) (n : Z) (fuel : nat) (i : Z)
    (samples : list (option value)) : M (list (option value)) :=
  if i <? n then
    match fuel with
    | O => abort
    | S fuel' =>
        let! angle := call_angle sc i in
        let! distance := call_distance sc i in
        let sample := props_set [] "angle" (VNumber angle) in
        let sample := props_set sample "distance" (VNumber distance) in
        fill_samples sc n fuel' (i + 1) (array_set samples (Z.to_nat i) (VObject sample))
    end
  else ret samples.

(** [AsyncScanWorker::HandleOKCallback], on the main loop. *)
Definition HandleOKCallback (w : AsyncScanWorker.t) : M unit :=
  let! n := call_number_of_samples (AsyncScanWorker.scan w) in
  let samples := array_new n in
  let! samples := fill_samples (AsyncScanWorker.scan w) n (Z.to_nat n) 0 samples in
  Call (AsyncScanWorker.callback w) [VNull; VArray samples].

(** [Nan::AsyncWorker::HandleErrorCallback], which the worker inherits:
    the continuation gets one argument, an [Error] with the message. *)
Definition HandleErrorCallback (w : AsyncScanWorker.t) (msg : string) : M unit :=
  Call (AsyncScanWorker.callback w) [VError msg].

(** [Nan::AsyncWorker::WorkComplete]. *)
Definition WorkComplete (w : AsyncScanWorker.t) : M unit :=
  match AsyncScanWorker.errmsg w with
  | None => HandleOKCallback w
  | Some msg => HandleErrorCallback w msg
  end.

(** [Sweep::scan].  The member [scan] of the new worker is not
    initialized; [Execute] assigns it before anything reads it. *)
Definition scan (info : FunctionCallbackInfo) : M completion :=
  let! self := Unwrap (Holder info) in
  if negb (length (args info) =? 2)%nat || negb (IsNumber (arg info 0))
     || negb (IsFunction (arg info 1)) then
    ThrowTypeError "Timeout and callback expected"
  else
    let! tmo := FromJust (To_int32 (arg info 0)) in
    match arg info 1 with
    | VFunction function =>
        AsyncQueueWorker {| AsyncScanWorker.callback := function;
                            AsyncScanWorker.errmsg := None;
                            AsyncScanWorker.sweep := Holder info;
                            AsyncScanWorker.timeout := tmo;
                            AsyncScanWorker.scan := nullptr |} ;;;
        ret (returns VUndefined)
    | _ => abort
    end.

(** *** The event loop *)

(** The thread pool picks the queued worker [id] and runs [Execute]. *)
Definition run_Execute (id : nat) : M unit :=
  fun m => match m_workers m !! id with
           | Some (Queued, w) =>
               match Execute w m with
               | Some (w', m') =>
                   Some (tt, with_workers (<[id := (Executed, w')]> (m_workers m'))
                                          (m_next_worker m') m')
               | None => None
               end
           | _ => None
           end.

(** The main loop completes the executed worker [id] and destroys it. *)
Definition run_WorkComplete (id : nat) : M unit :=
  fun m => match m_workers m !! id with
           | Some (Executed, w) =>
               match WorkComplete w m with
               | Some (_, m') =>
                   Some (tt, with_workers (delete id (m_workers m'))
                                          (m_next_worker m') m')
               | None => None
               end
           | _ => None
           end.

(** [new Sweep(argv)] in JavaScript: the engine allocates the object and
    runs [Sweep::New] on it as a construct call. *)
Definition construct (argv : list value) : M completion :=
  let! o := new_object in
  New {| args := argv; Holder := o; This := o; IsConstructCall := true |}.

(** The prototype methods [Sweep::Init] installs. *)
Inductive method :=
| startScanning_m | stopScanning_m | scan_m | getMotorSpeed_m
| setMotorSpeed_m | getSampleRate_m | reset_m.

Definition invoke (op : method) : FunctionCallbackInfo -> M completion :=
  match op with
  | startScanning_m => startScanning
  | stopScanning_m => stopScanning
  | scan_m => scan
  | getMotorSpeed_m => getMotorSpeed
  | setMotorSpeed_m => setMotorSpeed
  | getSampleRate_m => getSampleRate
  | reset_m => reset
  end.

End Binding.

Arguments m_world {D} _.
Arguments m_trace {D} _.
Arguments m_use_count {D} _.
Arguments m_wrapped {D} _.
Arguments m_workers {D} _.
Arguments m_calls {D} _.
Arguments m_next_worker {D} _.
Arguments m_next_object {D} _.
Arguments m_next_ctrl {D} _.

(** The machine before any call. *)
Definition boot (D : Driver) (w : world D) : machine D :=
  {| m_world := w; m_trace := []; m_use_count := ∅; m_next_ctrl := 0;
     m_wrapped := ∅; m_next_object := 0; m_workers := ∅; m_next_worker := 0;
     m_calls := [] |}.

(** ** A scripted driver

    The mock transport of the tests: one device at address 7, scans at
    address 9, error handles from address 64 on; the script says which
    calls fail and what the device answers. *)

Module Mock.

Record script := {
  construct_fails : bool;
  command_fails : bool;
  scan_fails : bool;
  message : string;
  speed : Z;
  rate : Z;
  revolution : list (number * number)
}.

(** The driver state: how many error handles were handed out. *)
Definition fail (w : N) : ptr * N := ((64 + w)%N, (w + 1)%N).

Definition answer (fails : bool) (w : N) : ptr * N :=
  if fails then fail w else (nullptr, w).

Definition driver (s : script) : Driver := {|
  world := N;
  sweep_device_construct_simple w :=
    let (e, w') := answer (construct_fails s) w in
    (if construct_fails s then nullptr else 7%N, e, w');
  sweep_device_construct _ _ _ w :=
    let (e, w') := answer (construct_fails s) w in
    (if construct_fails s then nullptr else 7%N, e, w');
  sweep_device_destruct _ w := w;
  sweep_device_start_scanning _ w := answer (command_fails s) w;
  sweep_device_stop_scanning _ w := answer (command_fails s) w;
  sweep_device_get_scan _ _ w :=
    let (e, w') := answer (scan_fails s) w in
    (if scan_fails s then nullptr else 9%N, e, w');
  sweep_scan_get_number_of_samples _ _ := Z.of_nat (length (revolution s));
  sweep_scan_get_angle _ i _ := default NaN (fst <$> revolution s !! Z.to_nat i);
  sweep_scan_get_distance _ i _ := default NaN (snd <$> revolution s !! Z.to_nat i);
  sweep_device_get_motor_speed _ w :=
    let (e, w') := answer (command_fails s) w in (speed s, e, w');
  sweep_device_set_motor_speed _ _ w := answer (command_fails s) w;
  sweep_device_get_sample_rate _ w :=
    let (e, w') := answer (command_fails s) w in (rate s, e, w');
  sweep_device_reset _ w := answer (command_fails s) w;
  sweep_error_message _ _ := message s;
  sweep_error_destruct _ w := w
|}.

(** A device that works: 5 Hz, 500 samples per second, three samples per
    revolution. *)
Definition healthy : script := {|
  construct_fails := false; command_fails := false; scan_fails := false;
  message := "";
  speed := 5; rate := 500;
  revolution := [(number_of_int 0, number_of_int 120);
                 (number_of_int 90000, number_of_int 75);
                 (number_of_int 45000, number_of_int 120)]
|}.

(** No device on the port. *)
Definition absent : script := {|
  construct_fails := true; command_fails := true; scan_fails := true;
  message := "unable to open serial port";
  speed := 0; rate := 0; revolution := []
|}.

(** A device that opens and then rejects every command and times out on
    every scan. *)
Definition stuck : script := {|
  construct_fails := false; command_fails := true; scan_fails := true;
  message := "timed out waiting for scan";
  speed := 0; rate := 0; revolution := []
|}.

(** No conversion of strings and objects is needed by the examples. *)
Definition no_conversion (v : value) : option number := None.

(** A method call on object 0. *)
Definition call_info (argv : list value) : FunctionCallbackInfo :=
  {| args := argv; Holder := 0%nat; This := 0%nat; IsConstructCall := false |}.

(** The machine after [new Sweep()], which yields object 0. *)
Definition opened (s : script) : option (machine (driver s)) :=
  snd <$> construct (driver s) no_conversion [] (boot (driver s) 0%N).

(** [sweep.scan(1000, f1)] on the opened device. *)
Definition scanning (s : script) : option (machine (driver s)) :=
  m ← opened s;
  snd <$> scan (driver s) no_conversion
            (call_info [VNumber (number_of_int 1000); VFunction 1]) m.

(** The machine of a run that did not abort. *)
Definition state {s : script} (run : option (machine (driver s))) : machine (driver s) :=
  default (boot (driver s) 0%N) run.

(** The native object [new Sweep()] wraps, and the worker [scan] queues. *)
Definition session : Sweep := {| device := {| sp_get := 7%N; sp_ctrl := 0 |} |}.

Definition worker : AsyncScanWorker.t :=
  {| AsyncScanWorker.callback := 1;
     AsyncScanWorker.errmsg := None;
     AsyncScanWorker.sweep := 0%nat;
     AsyncScanWorker.timeout := 1000;
     AsyncScanWorker.scan := nullptr |}.

End Mock.


(** ** Vocabulary of the properties *)

Section Statements.

Context (D : Driver).
Variable engine_to_number : value -> option number.

(** The synchronous operations: all methods but [scan]. *)
Definition synchronous (op : method) : bool :=
  match op with scan_m => false | _ => true end.

(** Arguments of the right count and type. *)
Definition valid_args (op : method) (argv : list value) : bool :=
  match op, argv with
  | setMotorSpeed_m, [VNumber _] => true
  | setMotorSpeed_m, _ => false
  | scan_m, [VNumber _; VFunction _] => true
  | scan_m, _ => false
  | _, [] => true
  | _, _ => false
  end.

(** The speed [setMotorSpeed(hz)] passes on. *)
Definition speed_arg (argv : list value) : Z :=
  match argv with
  | VNumber n :: _ => number_to_int32 n
  | _ => 0
  end.

(** The driver call a synchronous operation stands for, and what the
    driver answers to it: the error and the next driver state. *)
Definition command_event (op : method) (dev : ptr) (argv : list value) : event :=
  match op with
  | startScanning_m => EvStartScanning dev
  | stopScanning_m => EvStopScanning dev
  | scan_m => EvGetScan dev (speed_arg argv)
  | getMotorSpeed_m => EvGetMotorSpeed dev
  | setMotorSpeed_m => EvSetMotorSpeed dev (speed_arg argv)
  | getSampleRate_m => EvGetSampleRate dev
  | reset_m => EvReset dev
  end.

Definition command_reply (op : method) (dev : ptr) (argv : list value)
    (w : world D) : ptr * world D :=
  match op with
  | startScanning_m => sweep_device_start_scanning D dev w
  | stopScanning_m => sweep_device_stop_scanning D dev w
  | scan_m =>
      let '(_, e, w') := sweep_device_get_scan D dev (speed_arg argv) w in (e, w')
  | getMotorSpeed_m =>
      let '(_, e, w') := sweep_device_get_motor_speed D dev w in (e, w')
  | setMotorSpeed_m => sweep_device_set_motor_speed D dev (speed_arg argv) w
  | getSampleRate_m =>
      let '(_, e, w') := sweep_device_get_sample_rate D dev w in (e, w')
  | reset_m => sweep_device_reset D dev w
  end.

(** The two ways to construct a session. *)
Inductive attempt :=
| AutoDetect
| Explicit (port : string) (baudrate tmo : number).

Definition attempt_args (a : attempt) : list value :=
  match a with
  | AutoDetect => []
  | Explicit port baudrate tmo => [VString port; VNumber baudrate; VNumber tmo]
  end.

(** Called without [new], the binding constructs with no arguments. *)
Definition attempt_made (info : FunctionCallbackInfo) (a : attempt) : attempt :=
  if IsConstructCall info then a else AutoDetect.

Definition attempt_event (a : attempt) : event :=
  match a with
  | AutoDetect => EvConstructSimple
  | Explicit port baudrate tmo =>
      EvConstruct port (number_to_int32 baudrate) (number_to_int32 tmo)
  end.

Definition attempt_reply (a : attempt) (w : world D) : ptr * ptr * world D :=
  match a with
  | AutoDetect => sweep_device_construct_simple D w
  | Explicit port baudrate tmo =>
      sweep_device_construct D port (number_to_int32 baudrate) (number_to_int32 tmo) w
  end.

(** [{'angle': a, 'distance': d}] *)
Definition sample_record (s : number * number) : value :=
  VObject [("angle"%string, VNumber (fst s)); ("distance"%string, VNumber (snd s))].

(** The slot the binding fills for index [j] of the scan [sc]. *)
Definition record_at (sc : ptr) (w : world D) (j : nat) : option value :=
  Some (sample_record (sweep_scan_get_angle D sc (Z.of_nat j) w,
                       sweep_scan_get_distance D sc (Z.of_nat j) w)).

(** A worker of the session [o] is queued or executed and not completed. *)
Definition outstanding (m : machine D) (o : objref) : Prop :=
  exists id ph w, m_workers m !! id = Some (ph, w) /\ AsyncScanWorker.sweep w = o.

(** The exclusion the spec asks for: with a worker outstanding, a
    synchronous command makes no driver call. *)
Definition defers_commands : Prop :=
  forall op info (m : machine D) r m',
    synchronous op = true ->
    outstanding m (Holder info) ->
    valid_args op (args info) = true ->
    invoke D engine_to_number op info m = Some (r, m') ->
    m_trace m' = m_trace m.

(** The co-ownership the spec asks for: finalizing the session while one of
    its workers is outstanding makes no driver call (the device is not
    destructed). *)
Definition task_keeps_device_alive : Prop :=
  forall o (m : machine D) m',
    outstanding m o ->
    Sweep_finalize D o m = Some (tt, m') ->
    m_trace m' = m_trace m.

(** *** Callers: the script and the event loop *)

(** A method call of a script on the object [holder]. *)
Definition method_call (holder : objref) (argv : list value) : FunctionCallbackInfo :=
  {| args := argv; Holder := holder; This := holder; IsConstructCall := false |}.

(** A script that calls methods of one session one after the other,
    catching what each call throws. *)
Fixpoint run_commands (holder : objref) (cmds : list (method * list value))
  : M D (list completion) :=
  match cmds with
  | [] => ret D []
  | (op, argv) :: rest =>
      bind D (invoke D engine_to_number op (method_call holder argv)) (fun r =>
      bind D (run_commands holder rest) (fun rs =>
      ret D (r :: rs)))
  end.

(** The driver calls that are commands to a device, as opposed to the
    reading and the release of an error. *)
Definition is_command (ev : event) : bool :=
  match ev with
  | EvErrorMessage _ | EvErrorDestruct _ => false
  | _ => true
  end.

(** What can happen to the machine: the engine calls [New] or a method,
    the thread pool executes a worker, the main loop completes one, the
    garbage collector finalizes a session. *)
Inductive action :=
| ANew (info : FunctionCallbackInfo)
| AMethod (op : method) (info : FunctionCallbackInfo)
| AExecute (id : nat)
| AWorkComplete (id : nat)
| AFinalize (o : objref).

Definition run_action (a : action) : M D unit :=
  match a with
  | ANew info => bind D (New D engine_to_number info) (fun _ => ret D tt)
  | AMethod op info => bind D (invoke D engine_to_number op info) (fun _ => ret D tt)
  | AExecute id => run_Execute D id
  | AWorkComplete id => run_WorkComplete D id
  | AFinalize o => Sweep_finalize D o
  end.

Fixpoint run (acts : list action) : M D unit :=
  match acts with
  | [] => ret D tt
  | a :: rest => bind D (run_action a) (fun _ => run rest)
  end.

(** The shape of the native heap: every wrapped session is the one owner of
    its control block, no two sessions share a control block, and control
    blocks are numbered below the next one. *)
Definition sole_owners (m : machine D) : Prop :=
  (forall o s, m_wrapped m !! o = Some s ->
     m_use_count m !! sp_ctrl (device s) = Some 1%nat)
  /\ (forall o1 o2 s1 s2,
        m_wrapped m !! o1 = Some s1 -> m_wrapped m !! o2 = Some s2 ->
        sp_ctrl (device s1) = sp_ctrl (device s2) -> o1 = o2)
  /\ (forall c n, m_use_count m !! c = Some n -> (c < m_next_ctrl m)%nat).

(** Two machines with the same native heap. *)
Definition same_heap (m m' : machine D) : Prop :=
  m_wrapped m' = m_wrapped m
  /\ m_use_count m' = m_use_count m
  /\ m_next_ctrl m' = m_next_ctrl m.

End Statements.

(** * Properties *)

Section Proofs.

Context (D : Driver).
Variable engine_to_number : value -> option number.

Implicit Types (m : machine D) (info : FunctionCallbackInfo) (op : method).

Lemma is_null_spec (p : ptr) : is_null p = true <-> p = nullptr.
Proof. unfold is_null, nullptr. apply N.eqb_eq. Qed.

Lemma is_null_false (p : ptr) : is_null p = false <-> p <> nullptr.
Proof. unfold is_null, nullptr. apply N.eqb_neq. Qed.

(** Unfolding a method down to the driver calls. *)
Ltac unfold_binding :=
  unfold invoke, startScanning, stopScanning, getMotorSpeed, setMotorSpeed,
    getSampleRate, reset, scan, report, ThrowError, ThrowTypeError,
    AsyncQueueWorker, FromJust, To_int32, Unwrap, bind, ret, abort,
    call_start_scanning, call_stop_scanning, call_get_motor_speed,
    call_set_motor_speed, call_get_sample_rate, call_reset,
    call_error_message, call_error_destruct, arg in *.

(** What [report] does with the error of a driver call. *)
Lemma report_spec (error : ptr) (ok : value) m :
  report D error ok m =
    if is_null error then Some (returns ok, m)
    else Some (throws (VError (sweep_error_message D error (m_world m))),
               with_world D (sweep_error_destruct D error (m_world m))
                 (EvErrorDestruct error)
                 (with_world D (m_world m) (EvErrorMessage error) m)).
Proof. unfold report, bind, ret. destruct (is_null error); reflexivity. Qed.

(** A synchronous operation with valid arguments, step by step: one driver
    call, made during the call; on an error, the message is read and the
    error handle released; the workers and the continuation log are not
    touched. *)
Lemma sync_op_runs op info m self :
  synchronous op = true ->
  valid_args op (args info) = true ->
  m_wrapped m !! Holder info = Some self ->
  let dev := sp_get (device self) in
  let reply := command_reply D op dev (args info) (m_world m) in
  exists r m',
    invoke D engine_to_number op info m = Some (r, m') /\
    exception r = (if is_null reply.1 then None
                   else Some (VError (sweep_error_message D reply.1 reply.2))) /\
    m_trace m' = m_trace m ++ command_event op dev (args info) ::
                   (if is_null reply.1 then []
                    else [EvErrorMessage reply.1; EvErrorDestruct reply.1]) /\
    m_workers m' = m_workers m /\
    m_calls m' = m_calls m.
Proof.
  intros Hsync Hargs Hself dev reply.
  destruct op; try discriminate Hsync; simpl in Hargs.
  all: destruct (args info) as [|v [|v' rest]] eqn:Eargs; try discriminate Hargs.
  all: try (destruct v; try discriminate Hargs).
  all: subst reply dev; unfold command_reply, command_event.
  all: unfold_binding; rewrite Hself, Eargs; simpl.
  all: match goal with
       | |- context [let '(_, _) := ?c in _] => destruct c as [[? err] w] eqn:E
       | |- context [let (_, _) := ?c in _] => destruct c as [err w] eqn:E
       end; simpl.
  all: destruct (is_null err) eqn:En; simpl.
  all: eexists _, _; (split; [reflexivity|]); simpl.
  all: repeat split; try reflexivity.
  all: rewrite <- !app_assoc; reflexivity.
Qed.

(** C6: a synchronous operation called with valid arguments on a session
    throws if and only if the driver call reports an error; the exception
    is an [Error] with the driver's message; the driver function is called
    once (no retry) and the error is never dropped. *)
Theorem sync_op_fails_iff_driver_error op info m self :
  synchronous op = true ->
  valid_args op (args info) = true ->
  m_wrapped m !! Holder info = Some self ->
  let dev := sp_get (device self) in
  let reply := command_reply D op dev (args info) (m_world m) in
  exists r m',
    invoke D engine_to_number op info m = Some (r, m') /\
    (is_Some (exception r) <-> reply.1 <> nullptr) /\
    (reply.1 <> nullptr ->
       exception r = Some (VError (sweep_error_message D reply.1 reply.2))) /\
    m_trace m' = m_trace m ++ command_event op dev (args info) ::
                   (if is_null reply.1 then []
                    else [EvErrorMessage reply.1; EvErrorDestruct reply.1]).
Proof.
  intros Hsync Hargs Hself dev reply.
  destruct (sync_op_runs op info m self Hsync Hargs Hself)
    as (r & m' & Hrun & Hexc & Htrace & _ & _).
  fold dev in Hexc, Htrace. fold reply in Hexc, Htrace.
  exists r, m'. split; [exact Hrun|]. split; [|split; [|exact Htrace]].
  - rewrite Hexc. destruct (is_null reply.1) eqn:En.
    + apply is_null_spec in En. split; [intros [? ?]; discriminate | congruence].
    + apply is_null_false in En. split; [auto | eauto].
  - intros Hne. apply is_null_false in Hne. rewrite Hexc, Hne. reflexivity.
Qed.

(** C2, amended: a synchronous command with valid arguments, issued while a
    worker of the same session is outstanding, is not deferred: its driver
    call is made during the call, the worker stays outstanding and no
    continuation has fired.  The binding has no exclusion between the
    command path and the scan worker. *)
Theorem sync_command_not_deferred op info m self :
  synchronous op = true ->
  valid_args op (args info) = true ->
  m_wrapped m !! Holder info = Some self ->
  outstanding D m (Holder info) ->
  exists r m' rest,
    invoke D engine_to_number op info m = Some (r, m') /\
    m_trace m' = m_trace m ++
                   command_event op (sp_get (device self)) (args info) :: rest /\
    m_workers m' = m_workers m /\
    m_calls m' = m_calls m /\
    outstanding D m' (Holder info).
Proof.
  intros Hsync Hargs Hself Hout.
  destruct (sync_op_runs op info m self Hsync Hargs Hself)
    as (r & m' & Hrun & _ & Htrace & Hworkers & Hcalls).
  exists r, m'. eexists. split; [exact Hrun|]. split; [exact Htrace|].
  split; [exact Hworkers|]. split; [exact Hcalls|].
  unfold outstanding in *. rewrite Hworkers. exact Hout.
Qed.

(** C7: when the driver reports no error, [getMotorSpeed] and
    [getSampleRate] return the number of the integer the driver produced,
    unchanged. *)
Theorem getters_return_driver_value info m self :
  args info = [] ->
  m_wrapped m !! Holder info = Some self ->
  let dev := sp_get (device self) in
  (forall speed w,
     sweep_device_get_motor_speed D dev (m_world m) = (speed, nullptr, w) ->
     exists m',
       getMotorSpeed D info m = Some (returns (VNumber (number_of_int speed)), m')
       /\ m_world m' = w) /\
  (forall rate w,
     sweep_device_get_sample_rate D dev (m_world m) = (rate, nullptr, w) ->
     exists m',
       getSampleRate D info m = Some (returns (VNumber (number_of_int rate)), m')
       /\ m_world m' = w).
Proof.
  intros Hargs Hself dev; subst dev.
  split; intros x w Hreply; unfold_binding; rewrite Hself, Hargs; simpl;
    rewrite Hreply; simpl; eexists; split; reflexivity.
Qed.

(** A construct call for which the driver reports no error wraps a native
    object whose [device] is the one owner of the new handle: the only
    place where the field is written. *)
Lemma construction_assigns_device (a : attempt) info m dev w :
  IsConstructCall info = true ->
  args info = attempt_args a ->
  attempt_reply D a (m_world m) = (dev, nullptr, w) ->
  exists m',
    New D engine_to_number info m = Some (returns (VSweep (This info)), m')
    /\ m_wrapped m' =
         <[This info := {| device := {| sp_get := dev; sp_ctrl := m_next_ctrl m |} |}]>
           (m_wrapped m)
    /\ m_use_count m' = <[m_next_ctrl m := 1%nat]> (m_use_count m)
    /\ m_trace m' = m_trace m ++ [attempt_event a].
Proof.
  intros Hnew Hargs Hreply.
  unfold New, New_shape, New_construct, arg. rewrite Hargs, Hnew.
  destruct a; simpl in *.
  all: unfold Sweep_simple, Sweep_config, call_construct_simple, call_construct,
         shared_ptr_new, Wrap, FromJust, bind, ret; simpl.
  all: rewrite Hreply; simpl.
  all: eexists; repeat split; reflexivity.
Qed.

(** C8: when the driver reports an error for the construction that is
    attempted (auto-detect, or port, baud rate and timeout), [New] throws
    "device construction failed", wraps no native object, creates no
    shared_ptr control block (so nothing can ever run the deleter on the
    failed handle) and makes no driver call but the construction. *)
Theorem construction_failure_creates_nothing (a : attempt) info m :
  args info = attempt_args a ->
  let made := attempt_made info a in
  (attempt_reply D made (m_world m)).1.2 <> nullptr ->
  exists m',
    New D engine_to_number info m
      = Some (throws (VError "device construction failed"), m')
    /\ m_wrapped m' = m_wrapped m
    /\ m_use_count m' = m_use_count m
    /\ m_trace m' = m_trace m ++ [attempt_event made].
Proof.
  intros Hargs made Herr; subst made.
  unfold attempt_made in *.
  unfold New, New_shape, New_construct, construct, new_object, arg.
  rewrite Hargs.
  destruct (IsConstructCall info), a; simpl in *.
  all: unfold Sweep_simple, Sweep_config, call_construct_simple, call_construct,
         ThrowError, FromJust, bind, ret; simpl.
  all: match goal with
       | |- context [let '(_, _) := ?c in _] => destruct c as [[dev err] w] eqn:E
       end; simpl in *.
  all: apply is_null_false in Herr; rewrite Herr; simpl.
  all: eexists; repeat split; reflexivity.
Qed.

(** Case analysis on everything a method branches on. *)
Ltac split_cases :=
  repeat match goal with
         | |- context [match ?x with _ => _ end] =>
             match x with
             | context [match _ with _ => _ end] => fail 1
             | _ => destruct x eqn:?; simpl in *
             end
         end.

(** [scan] either rejects the call or queues one worker; nothing else
    changes. *)
Lemma scan_cases info m self :
  m_wrapped m !! Holder info = Some self ->
  scan D engine_to_number info m
    = Some (throws (VTypeError "Timeout and callback expected"), m)
  \/ exists n f,
       arg info 0 = VNumber n /\ arg info 1 = VFunction f /\ length (args info) = 2%nat /\
       scan D engine_to_number info m
         = Some (returns VUndefined,
                 with_workers D
                   (<[m_next_worker m :=
                        (Queued, {| AsyncScanWorker.callback := f;
                                    AsyncScanWorker.errmsg := None;
                                    AsyncScanWorker.sweep := Holder info;
                                    AsyncScanWorker.timeout := number_to_int32 n;
                                    AsyncScanWorker.scan := nullptr |})]> (m_workers m))
                   (S (m_next_worker m)) m).
Proof.
  intros Hself. unfold scan, bind, Unwrap. rewrite Hself.
  destruct (negb (length (args info) =? 2)%nat) eqn:Hlen; [left; reflexivity|].
  apply negb_false_iff, Nat.eqb_eq in Hlen.
  destruct (arg info 0) eqn:H0; try (left; reflexivity).
  destruct (arg info 1) eqn:H1; try (left; reflexivity).
  right. eexists _, _. repeat split; try reflexivity. exact Hlen.
Qed.

(** C10: every prototype method called on a session returns and leaves the
    wrapped native objects, hence the session's [device] field, and the
    use counts as they were.  ([setMotorSpeed] aborts the process when the
    conversion of its argument throws.) *)
Theorem methods_leave_device_field op info m self :
  m_wrapped m !! Holder info = Some self ->
  (op = setMotorSpeed_m -> is_Some (To_int32 engine_to_number (arg info 0))) ->
  exists r m',
    invoke D engine_to_number op info m = Some (r, m')
    /\ m_wrapped m' = m_wrapped m
    /\ m_use_count m' = m_use_count m.
Proof.
  intros Hself Hconv.
  destruct op.
  3: { destruct (scan_cases info m self Hself) as [E | (n & f & _ & _ & _ & E)];
       simpl; rewrite E; eexists _, _; repeat split; reflexivity. }
  4: { destruct Hconv as [hz Hhz]; [reflexivity|].
       unfold invoke, setMotorSpeed, bind, Unwrap. rewrite Hself, Hhz.
       unfold_binding. split_cases; eexists _, _; repeat split; reflexivity. }
  all: unfold_binding; rewrite Hself.
  all: split_cases; eexists _, _; repeat split; reflexivity.
Qed.

(** *** The worker *)

Lemma sample_built (a d : number) :
  VObject (props_set (props_set [] "angle" (VNumber a)) "distance" (VNumber d))
  = sample_record (a, d).
Proof. reflexivity. Qed.

(** The loop, entered at [i] with the slots below [i] filled and [fuel]
    holes left, fills every hole in order. *)
Lemma fill_samples_spec sc n fuel (i : nat) (filled : list (option value)) m :
  (i + fuel)%nat = Z.to_nat n ->
  length filled = i ->
  exists m',
    fill_samples D sc n fuel (Z.of_nat i) (filled ++ replicate fuel None) m
      = Some (filled ++ ((fun j : nat => record_at D sc (m_world m) j) <$> seq i fuel), m')
    /\ m_world m' = m_world m
    /\ m_calls m' = m_calls m
    /\ m_workers m' = m_workers m
    /\ m_next_worker m' = m_next_worker m.
Proof.
  revert i filled m.
  induction fuel as [|fuel IH]; intros i filled m Hsum Hlen; simpl.
  - assert ((Z.of_nat i <? n) = false) as -> by (apply Z.ltb_ge; lia).
    eexists. repeat split; reflexivity.
  - assert ((Z.of_nat i <? n) = true) as -> by (apply Z.ltb_lt; lia).
    unfold bind at 1 2, call_angle, call_distance. simpl.
    rewrite Nat2Z.id.
    unfold array_set. rewrite length_app. simpl.
    destruct (decide (i < length filled + S (length (replicate fuel None)))%nat)
      as [_|Hge]; [|lia].
    rewrite insert_app_r_alt by lia.
    replace (i - length filled)%nat with 0%nat by lia. simpl.
    replace (Z.of_nat i + 1) with (Z.of_nat (S i)) by lia.
    match goal with
    | |- context [fill_samples _ _ _ _ _ _ ?m1] =>
        destruct (IH (S i) (filled ++ [record_at D sc (m_world m) i]) m1)
          as (m' & Hrun & Hw & Hc & Hws & Hnw)
    end.
    + lia.
    + rewrite length_app. simpl. lia.
    + rewrite <- !app_assoc in Hrun. simpl in *.
      exists m'. split; [exact Hrun|]. repeat split; assumption.
Qed.

Lemma HandleOKCallback_spec (w : AsyncScanWorker.t) m :
  let sc := AsyncScanWorker.scan w in
  let n := Z.to_nat (sweep_scan_get_number_of_samples D sc (m_world m)) in
  exists m',
    HandleOKCallback D w m = Some (tt, m')
    /\ m_calls m' = m_calls m ++
         [(AsyncScanWorker.callback w,
           [VNull; VArray ((fun j : nat => record_at D sc (m_world m) j) <$> seq 0 n)])]
    /\ m_workers m' = m_workers m
    /\ m_next_worker m' = m_next_worker m.
Proof.
  intros sc n.
  destruct (fill_samples_spec sc
              (sweep_scan_get_number_of_samples D sc (m_world m)) n 0 []
              (with_world D (m_world m) (EvNumberOfSamples sc) m))
    as (m' & Hrun & Hw & Hc & Hws & Hnw); [reflexivity | reflexivity |].
  simpl in Hrun, Hw, Hc, Hws, Hnw.
  unfold HandleOKCallback, bind, call_number_of_samples, array_new, Call.
  fold sc. fold n. change (Z.of_nat 0) with 0 in Hrun. rewrite Hrun.
  eexists. split; [reflexivity|].
  simpl. rewrite Hc, Hws, Hnw. repeat split; reflexivity.
Qed.

(** The thread pool step: one [get_scan]; an error is read, released and
    kept as the worker's message. *)
Lemma run_Execute_spec id (w : AsyncScanWorker.t) m self sc err wd :
  m_workers m !! id = Some (Queued, w) ->
  m_wrapped m !! AsyncScanWorker.sweep w = Some self ->
  sweep_device_get_scan D (sp_get (device self)) (AsyncScanWorker.timeout w) (m_world m)
    = (sc, err, wd) ->
  let w1 := AsyncScanWorker.set_scan sc w in
  let w' := if is_null err then w1
            else AsyncScanWorker.SetErrorMessage (sweep_error_message D err wd) w1 in
  exists m1,
    run_Execute D id m = Some (tt, m1)
    /\ m_workers m1 = <[id := (Executed, w')]> (m_workers m)
    /\ m_calls m1 = m_calls m
    /\ m_trace m1 = m_trace m ++
         EvGetScan (sp_get (device self)) (AsyncScanWorker.timeout w) ::
         (if is_null err then [] else [EvErrorMessage err; EvErrorDestruct err]).
Proof.
  intros Hid Hself Hreply w1 w'; subst w1 w'.
  unfold run_Execute, Execute, bind, Unwrap, call_get_scan, call_error_message,
    call_error_destruct, ret.
  rewrite Hid, Hself, Hreply. simpl.
  destruct (is_null err); simpl; eexists; repeat split; try reflexivity.
  simpl. rewrite <- !app_assoc. reflexivity.
Qed.

(** The main loop step: the continuation is called once, with the samples
    or with the error, and the worker is destroyed. *)
Lemma run_WorkComplete_spec id (w : AsyncScanWorker.t) m :
  m_workers m !! id = Some (Executed, w) ->
  let sc := AsyncScanWorker.scan w in
  let n := Z.to_nat (sweep_scan_get_number_of_samples D sc (m_world m)) in
  exists m',
    run_WorkComplete D id m = Some (tt, m')
    /\ m_workers m' = delete id (m_workers m)
    /\ m_calls m' = m_calls m ++
         [(AsyncScanWorker.callback w,
           match AsyncScanWorker.errmsg w with
           | None => [VNull; VArray ((fun j : nat => record_at D sc (m_world m) j) <$> seq 0 n)]
           | Some msg => [VError msg]
           end)].
Proof.
  intros Hid sc n. unfold run_WorkComplete, WorkComplete. rewrite Hid.
  destruct (AsyncScanWorker.errmsg w) as [msg|].
  - unfold HandleErrorCallback, Call. eexists. repeat split; reflexivity.
  - destruct (HandleOKCallback_spec w m) as (m' & Hrun & Hc & Hws & Hnw).
    rewrite Hrun. eexists. split; [reflexivity|]. simpl.
    rewrite Hws. split; [reflexivity | exact Hc].
Qed.

(** C4: a queued worker whose [get_scan] reports no error, once executed
    and then completed in any later state that still holds it, calls the
    continuation once with [null] and an array of exactly as many records
    as the driver reports samples, the record at index [i] holding the
    angle and the distance the driver reports for index [i]. *)
Theorem scan_delivers_driver_samples id (w : AsyncScanWorker.t) m self sc wd :
  m_workers m !! id = Some (Queued, w) ->
  AsyncScanWorker.errmsg w = None ->
  m_wrapped m !! AsyncScanWorker.sweep w = Some self ->
  sweep_device_get_scan D (sp_get (device self)) (AsyncScanWorker.timeout w) (m_world m)
    = (sc, nullptr, wd) ->
  exists m1,
    run_Execute D id m = Some (tt, m1) /\
    forall m2,
      m_workers m2 !! id = m_workers m1 !! id ->
      let n := Z.to_nat (sweep_scan_get_number_of_samples D sc (m_world m2)) in
      exists m3 elems,
        run_WorkComplete D id m2 = Some (tt, m3)
        /\ m_calls m3 = m_calls m2 ++ [(AsyncScanWorker.callback w, [VNull; VArray elems])]
        /\ length elems = n
        /\ forall i : nat, (i < n)%nat ->
             elems !! i =
               Some (Some (sample_record
                             (sweep_scan_get_angle D sc (Z.of_nat i) (m_world m2),
                              sweep_scan_get_distance D sc (Z.of_nat i) (m_world m2)))).
Proof.
  intros Hid Hmsg Hself Hreply.
  destruct (run_Execute_spec id w m self sc nullptr wd Hid Hself Hreply)
    as (m1 & Hrun & Hws & _ & _).
  exists m1. split; [exact Hrun|].
  intros m2 Hsame n.
  rewrite Hws, lookup_insert_eq in Hsame. simpl in Hsame.
  destruct (run_WorkComplete_spec id _ m2 Hsame) as (m3 & Hdone & _ & Hcalls).
  simpl in Hcalls. rewrite Hmsg in Hcalls.
  exists m3. eexists. split; [exact Hdone|]. split; [exact Hcalls|]. fold n. split.
  - rewrite length_fmap, length_seq. reflexivity.
  - intros i Hi. rewrite list_lookup_fmap, lookup_seq_lt by exact Hi. reflexivity.
Qed.

(** C5: a queued worker, once executed and completed, calls the
    continuation once: when [get_scan] reported an error, with a single
    argument, an [Error] of the driver's message, and no samples; when it
    reported none, with [null] in the error slot, followed by the samples. *)
Theorem scan_error_slot id (w : AsyncScanWorker.t) m self sc err wd :
  m_workers m !! id = Some (Queued, w) ->
  AsyncScanWorker.errmsg w = None ->
  m_wrapped m !! AsyncScanWorker.sweep w = Some self ->
  sweep_device_get_scan D (sp_get (device self)) (AsyncScanWorker.timeout w) (m_world m)
    = (sc, err, wd) ->
  exists m1,
    run_Execute D id m = Some (tt, m1) /\
    forall m2,
      m_workers m2 !! id = m_workers m1 !! id ->
      exists m3 argv,
        run_WorkComplete D id m2 = Some (tt, m3)
        /\ m_calls m3 = m_calls m2 ++ [(AsyncScanWorker.callback w, argv)]
        /\ if is_null err then exists elems, argv = [VNull; VArray elems]
           else argv = [VError (sweep_error_message D err wd)].
Proof.
  intros Hid Hmsg Hself Hreply.
  destruct (run_Execute_spec id w m self sc err wd Hid Hself Hreply)
    as (m1 & Hrun & Hws & _ & _).
  exists m1. split; [exact Hrun|].
  intros m2 Hsame.
  rewrite Hws, lookup_insert_eq in Hsame.
  destruct (run_WorkComplete_spec id _ m2 Hsame) as (m3 & Hdone & _ & Hcalls).
  exists m3.
  destruct (is_null err); simpl in Hcalls.
  - rewrite Hmsg in Hcalls. eexists. split; [exact Hdone|].
    split; [exact Hcalls|]. eexists. reflexivity.
  - eexists. split; [exact Hdone|]. split; [exact Hcalls | reflexivity].
Qed.

(** *** Where the shape of the arguments is checked, and where not *)

(** X5: every method but [setMotorSpeed] rejects a call of the wrong shape
    before any driver call: the machine is left as it was. *)
Lemma bad_shape_rejected op info m self :
  op <> setMotorSpeed_m ->
  valid_args op (args info) = false ->
  m_wrapped m !! Holder info = Some self ->
  exists msg,
    invoke D engine_to_number op info m = Some (throws (VTypeError msg), m).
Proof.
  intros Hop Hbad Hself.
  destruct op; try congruence.
  3: { destruct (scan_cases info m self Hself) as [E | (n & f & H0 & H1 & Hlen & _)];
         [eexists; exact E|].
       exfalso. unfold arg in H0, H1. simpl in Hbad.
       destruct (args info) as [|a [|b [|c rest]]]; try discriminate Hlen.
       simpl in H0, H1. subst a b. discriminate Hbad. }
  all: unfold invoke, startScanning, stopScanning, getMotorSpeed, getSampleRate,
         reset, ThrowTypeError, bind, ret, Unwrap; rewrite Hself.
  all: destruct (args info); [discriminate Hbad|]; simpl; eexists; reflexivity.
Qed.

(** [setMotorSpeed] with exactly one argument never checks its type: the
    guard [Length() != 1 && !IsNumber()] is false, the argument is
    converted and the driver is called. *)
Lemma setMotorSpeed_one_argument_unchecked info m self (v : value) (hz : Z) :
  m_wrapped m !! Holder info = Some self ->
  args info = [v] ->
  To_int32 engine_to_number v = Some hz ->
  exists r m' rest,
    setMotorSpeed D engine_to_number info m = Some (r, m')
    /\ exception r <> Some (VTypeError "Motor speed in Hz as number expected")
    /\ m_trace m' = m_trace m ++ EvSetMotorSpeed (sp_get (device self)) hz :: rest.
Proof.
  intros Hself Hargs Hhz.
  unfold setMotorSpeed, bind, Unwrap, arg. rewrite Hself, Hargs. simpl. rewrite Hhz.
  unfold_binding. simpl.
  destruct (sweep_device_set_motor_speed D (sp_get (device self)) hz (m_world m))
    as [err w].
  destruct (is_null err); simpl; eexists _, _, _; repeat split; try discriminate.
  all: simpl; rewrite <- ?app_assoc; reflexivity.
Qed.

(** *** Who owns the device *)

(** Finalizing a session whose device has one owner destructs the device,
    whatever workers are outstanding. *)
Lemma finalize_destructs_sole_owner (o : objref) m self :
  m_wrapped m !! o = Some self ->
  m_use_count m !! sp_ctrl (device self) = Some 1%nat ->
  exists m',
    Sweep_finalize D o m = Some (tt, m')
    /\ m_trace m' = m_trace m ++ [EvDestruct (sp_get (device self))]
    /\ m_workers m' = m_workers m
    /\ m_wrapped m' = delete o (m_wrapped m).
Proof.
  intros Hself Hcount.
  unfold Sweep_finalize, bind, Unwrap, shared_ptr_release, call_destruct.
  rewrite Hself. simpl. rewrite Hcount.
  eexists. repeat split; reflexivity.
Qed.

(** A queued worker whose session is gone cannot execute: its reference
    dangles. *)
Lemma Execute_dangling id (w : AsyncScanWorker.t) m :
  m_workers m !! id = Some (Queued, w) ->
  m_wrapped m !! AsyncScanWorker.sweep w = None ->
  run_Execute D id m = None.
Proof.
  intros Hid Hgone. unfold run_Execute, Execute, bind, Unwrap.
  rewrite Hid, Hgone. reflexivity.
Qed.

(** *** Construction *)

(** X1: [New] called with arguments that are neither none nor (string,
    number, number) throws its TypeError and leaves the machine as it was:
    no driver call, no object wrapped. *)
Theorem New_rejects_bad_shape info m :
  args info <> [] ->
  (forall port baudrate tmo,
     args info <> [VString port; VNumber baudrate; VNumber tmo]) ->
  New D engine_to_number info m
    = Some (throws (VTypeError
        "No arguments for auto-detection or serial port, baudrate, timeout expected"),
            m).
Proof.
  intros Hsome Hnot.
  unfold New, New_shape, arg.
  destruct (args info) as [|a [|b [|c [|d rest]]]]; try congruence; try reflexivity.
  destruct a; try reflexivity.
  destruct b; try reflexivity.
  destruct c; try reflexivity.
  exfalso. eapply Hnot. reflexivity.
Qed.

(** X2: [new Sweep(...)] for which the driver reports no error yields the
    fresh object, wrapping a session whose device is the handle the driver
    returned, held by a new control block with one owner; the sessions
    already there are not touched. *)
Theorem construct_yields_session (a : attempt) m dev w :
  attempt_reply D a (m_world m) = (dev, nullptr, w) ->
  let o := m_next_object m in
  exists m',
    construct D engine_to_number (attempt_args a) m = Some (returns (VSweep o), m')
    /\ m_wrapped m' !! o
         = Some {| device := {| sp_get := dev; sp_ctrl := m_next_ctrl m |} |}
    /\ m_use_count m' !! m_next_ctrl m = Some 1%nat
    /\ (forall o', o' <> o -> m_wrapped m' !! o' = m_wrapped m !! o')
    /\ m_trace m' = m_trace m ++ [attempt_event a]
    /\ m_world m' = w.
Proof.
  intros Hreply o.
  unfold construct, bind, new_object.
  destruct (construction_assigns_device a
              {| args := attempt_args a; Holder := o; This := o; IsConstructCall := true |}
              (with_wrapped D (m_wrapped m) (S o) m) dev w)
    as (m' & Hnew & Hwrapped & Hcount & Htrace); [reflexivity | reflexivity | exact Hreply |].
  simpl in *. fold o. rewrite Hnew.
  exists m'. split; [reflexivity|].
  rewrite Hwrapped, Hcount. rewrite !lookup_insert_eq.
  repeat split; try assumption.
  - intros o' Hne. rewrite lookup_insert_ne by congruence. reflexivity.
  - revert Hnew. unfold New, New_shape, New_construct, arg.
    destruct a; simpl in *;
      unfold Sweep_simple, Sweep_config, call_construct_simple, call_construct,
        shared_ptr_new, Wrap, FromJust, bind, ret; simpl;
      rewrite Hreply; simpl; intros [= <-]; reflexivity.
Qed.

(** X3: [Sweep(...)] called without [new] drops its arguments: whatever
    they were, the device is auto-detected, on a new object, which is the
    value returned. *)
Theorem New_without_new_autodetects (a : attempt) info m :
  IsConstructCall info = false ->
  args info = attempt_args a ->
  let o := m_next_object m in
  let reply := sweep_device_construct_simple D (m_world m) in
  exists r m',
    New D engine_to_number info m = Some (r, m')
    /\ m_trace m' = m_trace m ++ [EvConstructSimple]
    /\ if is_null reply.1.2 then
         r = returns (VSweep o)
         /\ m_wrapped m' =
              <[o := {| device := {| sp_get := reply.1.1; sp_ctrl := m_next_ctrl m |} |}]>
                (m_wrapped m)
       else
         r = throws (VError "device construction failed")
         /\ m_wrapped m' = m_wrapped m.
Proof.
  intros Hcall Hargs o reply; subst o reply.
  unfold New, New_shape, New_construct, new_object, arg. rewrite Hargs, Hcall.
  destruct a; simpl.
  all: unfold Sweep_simple, call_construct_simple, shared_ptr_new, Wrap, ThrowError,
         bind, ret; simpl.
  all: destruct (sweep_device_construct_simple D (m_world m)) as [[dev err] w]; simpl.
  all: destruct (is_null err); simpl; eexists _, _; repeat split; reflexivity.
Qed.

(** X4: the branch of [New] that the source marks unreachable is: [New]
    never throws "Unable to create device". *)
Theorem New_unreachable_branch info m r m' :
  New D engine_to_number info m = Some (r, m') ->
  exception r <> Some (VError "Unable to create device").
Proof.
  unfold New, New_construct, new_object.
  destruct (New_shape info) as [simple config].
  destruct simple, config; simpl.
  all: unfold Sweep_simple, Sweep_config, call_construct_simple, call_construct,
         shared_ptr_new, Wrap, ThrowError, ThrowTypeError, FromJust, bind, ret.
  all: split_cases; intros [= <- <-]; simpl; discriminate.
Qed.

(** *** The methods *)

(** X6: when exactly [setMotorSpeed] raises its TypeError: if and only if
    the number of arguments is not one and the first argument is not a
    number. *)
Theorem setMotorSpeed_type_check info m self r m' :
  m_wrapped m !! Holder info = Some self ->
  setMotorSpeed D engine_to_number info m = Some (r, m') ->
  exception r = Some (VTypeError "Motor speed in Hz as number expected")
  <-> (length (args info) <> 1%nat /\ IsNumber (arg info 0) = false).
Proof.
  intros Hself.
  unfold setMotorSpeed, bind, Unwrap. rewrite Hself.
  destruct (length (args info) =? 1)%nat eqn:Hlen; simpl.
  - apply Nat.eqb_eq in Hlen.
    unfold_binding. split_cases; intros [= <- <-]; simpl;
      (split; [discriminate | intros [Hne _]; contradiction]).
  - apply Nat.eqb_neq in Hlen.
    destruct (IsNumber (arg info 0)) eqn:Hnum; simpl.
    + unfold_binding. split_cases; intros [= <- <-]; simpl;
        (split; [discriminate | intros [_ Hno]; discriminate]).
    + unfold ThrowTypeError, ret. intros [= <- <-]. simpl. split; auto.
Qed.

Lemma wrap_int32_range (z : Z) : - 2 ^ 31 <= wrap_int32 z < 2 ^ 31.
Proof.
  unfold wrap_int32.
  pose proof (Z.mod_pos_bound z (2 ^ 32) ltac:(lia)) as Hmod.
  destruct (Z.ltb_spec (z mod 2 ^ 32) (2 ^ 31)); lia.
Qed.

Lemma wrap_int32_small (z : Z) : - 2 ^ 31 <= z < 2 ^ 31 -> wrap_int32 z = z.
Proof.
  intros Hz. unfold wrap_int32.
  assert (z mod 2 ^ 32 = if z <? 0 then z + 2 ^ 32 else z) as ->.
  { symmetry. destruct (Z.ltb_spec z 0).
    - apply (Z.mod_unique z (2 ^ 32) (-1)); lia.
    - apply (Z.mod_unique z (2 ^ 32) 0); lia. }
  destruct (Z.ltb_spec z 0).
  - destruct (Z.ltb_spec (z + 2 ^ 32) (2 ^ 31)); lia.
  - destruct (Z.ltb_spec z (2 ^ 31)); lia.
Qed.

(** X7: the speed [setMotorSpeed(n)] hands to the driver is a 32-bit
    integer, and it is the argument itself when that is an integer in the
    32-bit range. *)
Theorem setMotorSpeed_speed_is_int32 info m self (n : number) :
  m_wrapped m !! Holder info = Some self ->
  args info = [VNumber n] ->
  exists r m' rest hz,
    setMotorSpeed D engine_to_number info m = Some (r, m')
    /\ m_trace m' = m_trace m ++ EvSetMotorSpeed (sp_get (device self)) hz :: rest
    /\ - 2 ^ 31 <= hz < 2 ^ 31
    /\ forall k, n = number_of_int k -> - 2 ^ 31 <= k < 2 ^ 31 -> hz = k.
Proof.
  intros Hself Hargs.
  destruct (setMotorSpeed_one_argument_unchecked info m self (VNumber n)
              (number_to_int32 n) Hself Hargs eq_refl)
    as (r & m' & rest & Hrun & _ & Htrace).
  exists r, m', rest, (number_to_int32 n).
  split; [exact Hrun|]. split; [exact Htrace|]. split.
  - apply wrap_int32_range.
  - intros k -> Hk. unfold number_to_int32, number_of_int, truncate. simpl.
    rewrite Z.mul_1_r. apply wrap_int32_small. exact Hk.
Qed.

(** X8: [scan] with a number and a function returns at once: no driver
    call, no continuation call; one more worker is queued, holding the
    function, the timeout as a 32-bit integer and the session, with no
    error message; the other workers stay as they are. *)
Theorem scan_queues_one_worker info m self (n : number) (f : nat) :
  m_wrapped m !! Holder info = Some self ->
  args info = [VNumber n; VFunction f] ->
  exists m',
    scan D engine_to_number info m = Some (returns VUndefined, m')
    /\ m_trace m' = m_trace m
    /\ m_world m' = m_world m
    /\ m_calls m' = m_calls m
    /\ m_workers m' !! m_next_worker m
         = Some (Queued, {| AsyncScanWorker.callback := f;
                            AsyncScanWorker.errmsg := None;
                            AsyncScanWorker.sweep := Holder info;
                            AsyncScanWorker.timeout := number_to_int32 n;
                            AsyncScanWorker.scan := nullptr |})
    /\ (forall id, id <> m_next_worker m -> m_workers m' !! id = m_workers m !! id)
    /\ m_next_worker m' = S (m_next_worker m).
Proof.
  intros Hself Hargs.
  destruct (scan_cases info m self Hself) as [E | (n' & f' & H0 & H1 & _ & E)].
  - exfalso. revert E. unfold scan, bind, Unwrap, arg. rewrite Hself, Hargs. simpl.
    unfold AsyncQueueWorker, ret. discriminate.
  - unfold arg in H0, H1. rewrite Hargs in H0, H1. simpl in H0, H1.
    injection H0 as <-. injection H1 as <-.
    rewrite E. eexists. split; [reflexivity|]. simpl.
    rewrite lookup_insert_eq. repeat split.
    intros id Hne. rewrite lookup_insert_ne by congruence. reflexivity.
Qed.

(** *** The worker *)

(** X9: executing a queued worker makes one driver call, [get_scan] on the
    device of its session with its timeout, and calls no continuation; the
    worker keeps the scan, and the driver's message when there was an
    error, which is read and released. *)
Theorem Execute_reads_one_scan id (w : AsyncScanWorker.t) m self :
  m_workers m !! id = Some (Queued, w) ->
  m_wrapped m !! AsyncScanWorker.sweep w = Some self ->
  let dev := sp_get (device self) in
  let reply := sweep_device_get_scan D dev (AsyncScanWorker.timeout w) (m_world m) in
  let err := reply.1.2 in
  exists m1 w',
    run_Execute D id m = Some (tt, m1)
    /\ m_workers m1 !! id = Some (Executed, w')
    /\ AsyncScanWorker.scan w' = reply.1.1
    /\ AsyncScanWorker.callback w' = AsyncScanWorker.callback w
    /\ AsyncScanWorker.errmsg w' =
         (if is_null err then AsyncScanWorker.errmsg w
          else Some (sweep_error_message D err reply.2))
    /\ m_calls m1 = m_calls m
    /\ m_trace m1 = m_trace m ++ EvGetScan dev (AsyncScanWorker.timeout w) ::
         (if is_null err then [] else [EvErrorMessage err; EvErrorDestruct err]).
Proof.
  intros Hid Hself dev reply err; subst err.
  destruct reply as [[sc err] wd] eqn:Hreply. subst reply. simpl.
  destruct (run_Execute_spec id w m self sc err wd Hid Hself Hreply)
    as (m1 & Hrun & Hws & Hcalls & Htrace).
  exists m1. eexists. split; [exact Hrun|].
  rewrite Hws, lookup_insert_eq. split; [reflexivity|].
  destruct (is_null err); simpl; repeat split; assumption.
Qed.

(** The loop reads the angle and the distance of every index from [i] on,
    in order. *)
Lemma fill_samples_trace sc n fuel (i : nat) (samples : list (option value)) m :
  (i + fuel)%nat = Z.to_nat n ->
  exists r m',
    fill_samples D sc n fuel (Z.of_nat i) samples m = Some (r, m')
    /\ m_trace m' = m_trace m ++
         flat_map (fun j : nat => [EvAngle sc (Z.of_nat j); EvDistance sc (Z.of_nat j)])
                  (seq i fuel).
Proof.
  revert i samples m.
  induction fuel as [|fuel IH]; intros i samples m Hsum; simpl.
  - assert ((Z.of_nat i <? n) = false) as -> by (apply Z.ltb_ge; lia).
    eexists _, _. split; [reflexivity|]. rewrite app_nil_r. reflexivity.
  - assert ((Z.of_nat i <? n) = true) as -> by (apply Z.ltb_lt; lia).
    unfold bind at 1 2, call_angle, call_distance. simpl.
    replace (Z.of_nat i + 1) with (Z.of_nat (S i)) by lia.
    match goal with
    | |- context [fill_samples _ _ _ _ _ ?s1 ?m1] =>
        destruct (IH (S i) s1 m1) as (r & m' & Hrun & Htrace); [lia|]
    end.
    exists r, m'. split; [exact Hrun|].
    rewrite Htrace. simpl. rewrite <- !app_assoc. reflexivity.
Qed.

(** X10: [HandleOKCallback] asks the driver for the number of samples [n]
    and then for the angle and the distance of the indices 0 to [n-1], in
    that order and nothing else: no index out of range is read, and the
    driver state is not changed. *)
Theorem HandleOKCallback_reads_in_bounds (w : AsyncScanWorker.t) m :
  let sc := AsyncScanWorker.scan w in
  let n := Z.to_nat (sweep_scan_get_number_of_samples D sc (m_world m)) in
  exists m',
    HandleOKCallback D w m = Some (tt, m')
    /\ m_trace m' = m_trace m ++ EvNumberOfSamples sc ::
         flat_map (fun j : nat => [EvAngle sc (Z.of_nat j); EvDistance sc (Z.of_nat j)])
                  (seq 0 n)
    /\ m_world m' = m_world m.
Proof.
  intros sc n.
  destruct (HandleOKCallback_spec w m) as (m' & Hrun & _).
  exists m'. split; [exact Hrun|].
  revert Hrun. unfold HandleOKCallback, bind, call_number_of_samples, array_new, Call.
  fold sc. fold n.
  destruct (fill_samples_spec sc
              (sweep_scan_get_number_of_samples D sc (m_world m)) n 0 []
              (with_world D (m_world m) (EvNumberOfSamples sc) m))
    as (m1 & Hfill & Hw & _); [reflexivity | reflexivity |].
  destruct (fill_samples_trace sc
              (sweep_scan_get_number_of_samples D sc (m_world m)) n 0
              (replicate n None)
              (with_world D (m_world m) (EvNumberOfSamples sc) m))
    as (r & m2 & Hfill' & Htrace); [reflexivity|].
  simpl in Hfill, Hfill', Hw, Htrace.
  change (Z.of_nat 0) with 0 in Hfill, Hfill'.
  rewrite Hfill in Hfill'. injection Hfill' as <- <-.
  rewrite Hfill. intros [= <-]. simpl.
  rewrite Htrace, <- app_assoc. split; [reflexivity | exact Hw].
Qed.


(** *** The native heap under every action *)

Lemma sole_owners_same_heap m m' :
  same_heap D m m' -> sole_owners D m -> sole_owners D m'.
Proof.
  intros (Hw & Hc & Hn) Hinv. unfold sole_owners in *. rewrite Hw, Hc, Hn. exact Hinv.
Qed.

Lemma invoke_same_heap op info m r m' :
  invoke D engine_to_number op info m = Some (r, m') -> same_heap D m m'.
Proof.
  destruct op; unfold_binding; split_cases; intros [= <- <-];
    repeat split; reflexivity.
Qed.

Lemma fill_samples_same_heap sc n fuel i samples m r m' :
  fill_samples D sc n fuel i samples m = Some (r, m') -> same_heap D m m'.
Proof.
  revert i samples m.
  induction fuel as [|fuel IH]; intros i samples m; simpl.
  - destruct (i <? n); [discriminate|]. intros [= <- <-]. repeat split; reflexivity.
  - destruct (i <? n); [|intros [= <- <-]; repeat split; reflexivity].
    unfold bind at 1 2, call_angle, call_distance. simpl.
    intros Hrun. apply IH in Hrun. exact Hrun.
Qed.

Lemma run_Execute_same_heap id m m' :
  run_Execute D id m = Some (tt, m') -> same_heap D m m'.
Proof.
  unfold run_Execute, Execute, bind, Unwrap, call_get_scan, call_error_message,
    call_error_destruct, ret.
  split_cases; intros [= <-]; repeat split; reflexivity.
Qed.

Lemma run_WorkComplete_same_heap id m m' :
  run_WorkComplete D id m = Some (tt, m') -> same_heap D m m'.
Proof.
  unfold run_WorkComplete.
  destruct (m_workers m !! id) as [[[] w]|]; try discriminate.
  unfold WorkComplete, HandleErrorCallback, HandleOKCallback, Call, bind,
    call_number_of_samples, array_new.
  destruct (AsyncScanWorker.errmsg w).
  - intros [= <-]. repeat split; reflexivity.
  - match goal with
    | |- context [fill_samples ?d ?sc ?n ?fuel ?i ?s ?m1] =>
        destruct (fill_samples d sc n fuel i s m1) as [[r m1']|] eqn:Hfill
    end; [|discriminate].
    apply fill_samples_same_heap in Hfill. intros [= <-].
    destruct Hfill as (Hw & Hc & Hn). simpl in *. repeat split; assumption.
Qed.

(** [New] either leaves the heap alone or adds one session that owns a new
    control block. *)
Lemma New_heap info m r m' :
  New D engine_to_number info m = Some (r, m') ->
  same_heap D m m'
  \/ exists o dev,
       m_wrapped m' =
         <[o := {| device := {| sp_get := dev; sp_ctrl := m_next_ctrl m |} |}]> (m_wrapped m)
       /\ m_use_count m' = <[m_next_ctrl m := 1%nat]> (m_use_count m)
       /\ m_next_ctrl m' = S (m_next_ctrl m).
Proof.
  unfold New, New_construct, new_object.
  destruct (New_shape info) as [simple config].
  destruct simple, config; simpl.
  all: unfold Sweep_simple, Sweep_config, call_construct_simple, call_construct,
         shared_ptr_new, Wrap, ThrowError, ThrowTypeError, FromJust, bind, ret.
  all: split_cases; intros [= <- <-]; simpl.
  all: first [ left; repeat split; reflexivity
             | right; eexists _, _; repeat split; reflexivity ].
Qed.

Lemma sole_owners_New info m r m' :
  sole_owners D m ->
  New D engine_to_number info m = Some (r, m') ->
  sole_owners D m'.
Proof.
  intros Hinv Hnew.
  destruct (New_heap info m r m' Hnew) as [Hsame | (o & dev & Hw & Hc & Hn)];
    [exact (sole_owners_same_heap m m' Hsame Hinv)|].
  destruct Hinv as (Hone & Hdistinct & Hbelow).
  assert (forall o' s', m_wrapped m !! o' = Some s' ->
            sp_ctrl (device s') <> m_next_ctrl m) as Hfresh.
  { intros o' s' Hs'. apply Hone in Hs'. apply Hbelow in Hs'. lia. }
  unfold sole_owners. rewrite Hw, Hc, Hn. split; [|split].
  - intros o' s'. rewrite lookup_insert. case_decide as Ho.
    + intros [= <-]. simpl. apply lookup_insert_eq.
    + intros Hs'. rewrite lookup_insert_ne by (symmetry; eauto). eauto.
  - intros o1 o2 s1 s2. rewrite !lookup_insert.
    repeat case_decide; subst; try reflexivity.
    + intros [= <-] Hs2 Heq. simpl in Heq. symmetry in Heq.
      exfalso. eapply Hfresh; eauto.
    + intros Hs1 [= <-] Heq. simpl in Heq. exfalso. eapply Hfresh; eauto.
    + eauto.
  - intros c k. rewrite lookup_insert. case_decide.
    + intros _. lia.
    + intros Hc'. apply Hbelow in Hc'. lia.
Qed.

Lemma sole_owners_finalize (o : objref) m m' :
  sole_owners D m ->
  Sweep_finalize D o m = Some (tt, m') ->
  sole_owners D m'.
Proof.
  intros (Hone & Hdistinct & Hbelow).
  unfold Sweep_finalize, bind, Unwrap.
  destruct (m_wrapped m !! o) as [self|] eqn:Hself; [|discriminate]. simpl.
  unfold shared_ptr_release, call_destruct. simpl.
  rewrite (Hone o self Hself). intros [= <-].
  unfold sole_owners. simpl. split; [|split].
  - intros o' s'. rewrite lookup_delete. case_decide; [discriminate|].
    intros Hs'. rewrite lookup_delete_ne; [eauto|].
    intros Heq. eauto.
  - intros o1 o2 s1 s2. rewrite !lookup_delete.
    repeat case_decide; try discriminate. eauto.
  - intros c k. rewrite lookup_delete. case_decide; [discriminate|]. eauto.
Qed.

Lemma sole_owners_step (a : action) m m' :
  sole_owners D m ->
  run_action D engine_to_number a m = Some (tt, m') ->
  sole_owners D m'.
Proof.
  intros Hinv. destruct a; simpl.
  - unfold bind, ret.
    destruct (New D engine_to_number info m) as [[r m1]|] eqn:Hnew; [|discriminate].
    intros [= <-]. exact (sole_owners_New info m r m1 Hinv Hnew).
  - unfold bind, ret.
    destruct (invoke D engine_to_number op info m) as [[r m1]|] eqn:Hrun; [|discriminate].
    intros [= <-]. apply (sole_owners_same_heap m m1); [|exact Hinv].
    exact (invoke_same_heap op info m r m1 Hrun).
  - intros Hrun. apply (sole_owners_same_heap m m'); [|exact Hinv].
    exact (run_Execute_same_heap id m m' Hrun).
  - intros Hrun. apply (sole_owners_same_heap m m'); [|exact Hinv].
    exact (run_WorkComplete_same_heap id m m' Hrun).
  - exact (sole_owners_finalize o m m' Hinv).
Qed.

Lemma sole_owners_run (acts : list action) m m' :
  sole_owners D m ->
  run D engine_to_number acts m = Some (tt, m') ->
  sole_owners D m'.
Proof.
  revert m. induction acts as [|a acts IH]; intros m Hinv; simpl.
  - unfold ret. intros [= <-]. exact Hinv.
  - unfold bind.
    destruct (run_action D engine_to_number a m) as [[[] m1]|] eqn:Hstep; [|discriminate].
    apply IH. exact (sole_owners_step a m m1 Hinv Hstep).
Qed.

Lemma sole_owners_boot (w : world D) : sole_owners D (boot D w).
Proof.
  unfold sole_owners, boot. simpl. repeat split; intros *; rewrite ?lookup_empty; discriminate.
Qed.

(** X12: whatever the engine, the thread pool, the main loop and the
    garbage collector have done since start-up, every session is the one
    owner of its device's control block, and no other session holds that
    control block: the binding never shares a device between sessions nor
    with a worker. *)
Theorem sessions_own_their_device (acts : list action) (w : world D) m (o : objref) s :
  run D engine_to_number acts (boot D w) = Some (tt, m) ->
  m_wrapped m !! o = Some s ->
  m_use_count m !! sp_ctrl (device s) = Some 1%nat
  /\ forall o' s', m_wrapped m !! o' = Some s' -> o' <> o ->
       sp_ctrl (device s') <> sp_ctrl (device s).
Proof.
  intros Hrun Hs.
  destruct (sole_owners_run acts (boot D w) m (sole_owners_boot w) Hrun)
    as (Hone & Hdistinct & _).
  split; [eauto|].
  intros o' s' Hs' Hne Heq. apply Hne. eauto.
Qed.

(** X13: in any state the machine can reach, finalizing a session succeeds,
    destructs its device with one driver call and unwraps it; every other
    session keeps its device and stays its one owner. *)
Theorem finalize_spares_other_sessions (acts : list action) (w : world D) m
    (o : objref) self :
  run D engine_to_number acts (boot D w) = Some (tt, m) ->
  m_wrapped m !! o = Some self ->
  exists m',
    Sweep_finalize D o m = Some (tt, m')
    /\ m_trace m' = m_trace m ++ [EvDestruct (sp_get (device self))]
    /\ m_wrapped m' !! o = None
    /\ forall o' s', o' <> o -> m_wrapped m !! o' = Some s' ->
         m_wrapped m' !! o' = Some s'
         /\ m_use_count m' !! sp_ctrl (device s') = Some 1%nat.
Proof.
  intros Hrun Hself.
  pose proof (sole_owners_run acts (boot D w) m (sole_owners_boot w) Hrun) as Hinv.
  destruct Hinv as (Hone & Hdistinct & Hbelow).
  destruct (finalize_destructs_sole_owner o m self Hself (Hone o self Hself))
    as (m' & Hfin & Htrace & _ & Hwrapped).
  exists m'. split; [exact Hfin|]. split; [exact Htrace|].
  rewrite Hwrapped. split; [apply lookup_delete_eq|].
  intros o' s' Hne Hs'. split; [rewrite lookup_delete_ne by congruence; exact Hs'|].
  revert Hfin. unfold Sweep_finalize, bind, Unwrap, shared_ptr_release, call_destruct.
  rewrite Hself. simpl. rewrite (Hone o self Hself). intros [= <-]. simpl.
  rewrite lookup_delete_ne; [eauto|].
  intros Heq. apply Hne. eauto.
Qed.

(** *** Calls in sequence *)

Lemma command_event_is_command op (dev : ptr) (argv : list value) :
  is_command (command_event op dev argv) = true.
Proof. destruct op; reflexivity. Qed.

(** X14: a script that calls synchronous methods with valid arguments on
    one session, one after the other, gets one completion per call, and
    the device sees one command per call, in the order of the calls. *)
Theorem commands_in_issue_order (holder : objref) (cmds : list (method * list value))
    m self :
  m_wrapped m !! holder = Some self ->
  Forall (fun c => synchronous c.1 = true /\ valid_args c.1 c.2 = true) cmds ->
  exists rs m' added,
    run_commands D engine_to_number holder cmds m = Some (rs, m')
    /\ length rs = length cmds
    /\ m_trace m' = m_trace m ++ added
    /\ List.filter is_command added
       = (fun c => command_event c.1 (sp_get (device self)) c.2) <$> cmds.
Proof.
  intros Hself Hall. revert m Hself.
  induction Hall as [|[op argv] cmds [Hsync Hvalid] _ IH]; intros m Hself; simpl.
  - exists [], m, []. unfold ret. rewrite app_nil_r. repeat split; reflexivity.
  - simpl in Hsync, Hvalid.
    destruct (sync_op_runs op (method_call holder argv) m self Hsync Hvalid Hself)
      as (r & m1 & Hrun & _ & Htrace & _ & _).
    pose proof (invoke_same_heap _ _ _ _ _ Hrun) as (Hwrapped & _ & _).
    destruct (IH m1) as (rs & m' & added & Hrest & Hlen & Htrace' & Hfilter).
    { rewrite Hwrapped. exact Hself. }
    unfold bind at 1. rewrite Hrun. unfold bind at 1. rewrite Hrest. unfold ret.
    eexists _, _, _. split; [reflexivity|]. split; [simpl; rewrite Hlen; reflexivity|].
    split.
    + rewrite Htrace', Htrace, <- app_assoc. reflexivity.
    + simpl in *. rewrite command_event_is_command.
      rewrite List.filter_app, Hfilter.
      destruct (is_null _); reflexivity.
Qed.

(** X15: a command on a freshly constructed session goes to the device
    handle the driver returned for that construction. *)
Theorem methods_address_constructed_device (a : attempt) op (argv : list value)
    m dev w :
  attempt_reply D a (m_world m) = (dev, nullptr, w) ->
  synchronous op = true ->
  valid_args op argv = true ->
  let o := m_next_object m in
  exists m1 r m2 rest,
    construct D engine_to_number (attempt_args a) m = Some (returns (VSweep o), m1)
    /\ invoke D engine_to_number op (method_call o argv) m1 = Some (r, m2)
    /\ m_trace m2 = m_trace m ++ attempt_event a :: command_event op dev argv :: rest.
Proof.
  intros Hreply Hsync Hvalid o.
  unfold construct, bind, new_object.
  destruct (construction_assigns_device a
              {| args := attempt_args a; Holder := o; This := o; IsConstructCall := true |}
              (with_wrapped D (m_wrapped m) (S o) m) dev w)
    as (m1 & Hnew & Hwrapped & _ & Htrace1); [reflexivity | reflexivity | exact Hreply |].
  simpl in Hnew, Hwrapped, Htrace1. fold o. rewrite Hnew.
  destruct (sync_op_runs op (method_call o argv) m1
              {| device := {| sp_get := dev; sp_ctrl := m_next_ctrl m |} |} Hsync Hvalid)
    as (r & m2 & Hrun & _ & Htrace2 & _ & _).
  { rewrite Hwrapped. simpl. apply lookup_insert_eq. }
  simpl in Htrace2.
  exists m1, r, m2. eexists. split; [reflexivity|]. split; [exact Hrun|].
  rewrite Htrace2, Htrace1, <- app_assoc. reflexivity.
Qed.

(** X16: a scan for which the driver reports no sample (or a negative
    count) is delivered as [null] and an empty array, and no angle or
    distance is read. *)
Theorem empty_scan_delivers_empty_array (w : AsyncScanWorker.t) m :
  AsyncScanWorker.errmsg w = None ->
  sweep_scan_get_number_of_samples D (AsyncScanWorker.scan w) (m_world m) <= 0 ->
  exists m',
    WorkComplete D w m = Some (tt, m')
    /\ m_calls m' = m_calls m ++ [(AsyncScanWorker.callback w, [VNull; VArray []])]
    /\ m_trace m' = m_trace m ++ [EvNumberOfSamples (AsyncScanWorker.scan w)].
Proof.
  intros Hmsg Hn.
  unfold WorkComplete. rewrite Hmsg.
  unfold HandleOKCallback, bind, call_number_of_samples, array_new, Call.
  replace (Z.to_nat (sweep_scan_get_number_of_samples D (AsyncScanWorker.scan w)
                       (m_world m))) with 0%nat by lia.
  simpl.
  assert ((0 <? sweep_scan_get_number_of_samples D (AsyncScanWorker.scan w) (m_world m))
          = false) as -> by (apply Z.ltb_ge; exact Hn).
  unfold ret. eexists. repeat split; reflexivity.
Qed.

End Proofs.

(** * The scripted driver at work *)

(** C1, evaluated where it fails: after [new Sweep()] and
    [scan(1000, f1)] the worker is queued, and the device still has one
    owner (the session); finalizing the session destructs the device while
    the worker is outstanding, and the worker can no longer execute. *)
Theorem finalize_destructs_device_under_worker :
  let D := Mock.driver Mock.healthy in
  exists m m' : machine D,
    Mock.scanning Mock.healthy = Some m
    /\ m_workers m !! 0%nat = Some (Queued, Mock.worker)
    /\ m_wrapped m !! AsyncScanWorker.sweep Mock.worker = Some Mock.session
    /\ m_use_count m !! sp_ctrl (device Mock.session) = Some 1%nat
    /\ Sweep_finalize D 0%nat m = Some (tt, m')
    /\ m_trace m' = m_trace m ++ [EvDestruct (sp_get (device Mock.session))]
    /\ m_workers m' !! 0%nat = Some (Queued, Mock.worker)
    /\ run_Execute D 0 m' = None.
Proof.
  eexists _, _.
  split; [vm_compute; reflexivity|].
  repeat split; vm_compute; reflexivity.
Qed.

(** The claim C1 as a property of the binding fails on the scripted
    driver. *)
Lemma device_not_kept_alive :
  ~ task_keeps_device_alive (Mock.driver Mock.healthy).
Proof.
  intros Hkeeps.
  pose (m := Mock.state (Mock.scanning Mock.healthy)).
  destruct (Sweep_finalize (Mock.driver Mock.healthy) 0%nat m)
    as [[[] m']|] eqn:Hfin; [|vm_compute in Hfin; discriminate].
  assert (m_trace m' = m_trace m) as Htrace.
  { apply (Hkeeps 0%nat m m'); [|exact Hfin].
    exists 0%nat, Queued, Mock.worker. split; vm_compute; reflexivity. }
  vm_compute in Hfin. injection Hfin as <-.
  vm_compute in Htrace. discriminate Htrace.
Qed.

(** C2 as stated fails: with a worker outstanding, [getMotorSpeed()] calls
    the driver at once. *)
Lemma commands_not_deferred :
  ~ defers_commands (Mock.driver Mock.healthy) Mock.no_conversion.
Proof.
  intros Hdefers.
  pose (m := Mock.state (Mock.scanning Mock.healthy)).
  destruct (invoke (Mock.driver Mock.healthy) Mock.no_conversion getMotorSpeed_m
              (Mock.call_info []) m) as [[r m']|] eqn:Hrun;
    [|vm_compute in Hrun; discriminate].
  assert (m_trace m' = m_trace m) as Htrace.
  { apply (Hdefers getMotorSpeed_m (Mock.call_info []) m r m');
      [reflexivity | | reflexivity | exact Hrun].
    exists 0%nat, Queued, Mock.worker. split; vm_compute; reflexivity. }
  vm_compute in Hrun. injection Hrun as <- <-.
  vm_compute in Htrace. discriminate Htrace.
Qed.

(** C3, evaluated where it fails: [setMotorSpeed(true)] and
    [setMotorSpeed(3, 4)] are not rejected; the driver is called with speed
    1 and 3. *)
Theorem setMotorSpeed_accepts_bad_shape :
  let D := Mock.driver Mock.healthy in
  let m := Mock.state (Mock.opened Mock.healthy) in
  (exists m',
     setMotorSpeed D Mock.no_conversion (Mock.call_info [VBoolean true]) m
       = Some (returns VUndefined, m')
     /\ m_trace m' = m_trace m ++ [EvSetMotorSpeed 7%N 1]) /\
  (exists m',
     setMotorSpeed D Mock.no_conversion
       (Mock.call_info [VNumber (number_of_int 3); VNumber (number_of_int 4)]) m
       = Some (returns VUndefined, m')
     /\ m_trace m' = m_trace m ++ [EvSetMotorSpeed 7%N 3]).
Proof.
  split; eexists; split; vm_compute; reflexivity.
Qed.

(** C9, evaluated where it fails: a failed construction gets the error
    handle 64 from the driver and makes no further driver call: the
    message is not read and the handle is never destructed. *)
Theorem construction_error_never_released :
  let D := Mock.driver Mock.absent in
  sweep_device_construct_simple D 0%N = (nullptr, 64%N, 1%N) /\
  exists m',
    construct D Mock.no_conversion [] (boot D 0%N)
      = Some (throws (VError "device construction failed"), m')
    /\ m_trace m' = [EvConstructSimple]
    /\ m_world m' = 1%N.
Proof.
  split; [reflexivity|].
  eexists. repeat split; vm_compute; reflexivity.
Qed.

(** ** The theorems at the scripted driver *)

Lemma sync_command_not_deferred_witness :
  let D := Mock.driver Mock.healthy in
  let m := Mock.state (Mock.scanning Mock.healthy) in
  exists r m' rest,
    invoke D Mock.no_conversion getMotorSpeed_m (Mock.call_info []) m = Some (r, m')
    /\ m_trace m' = m_trace m ++ EvGetMotorSpeed 7%N :: rest
    /\ m_workers m' = m_workers m
    /\ m_calls m' = m_calls m
    /\ outstanding D m' 0%nat.
Proof.
  apply (sync_command_not_deferred (Mock.driver Mock.healthy) Mock.no_conversion
           getMotorSpeed_m (Mock.call_info [])
           (Mock.state (Mock.scanning Mock.healthy)) Mock.session).
  - reflexivity.
  - reflexivity.
  - vm_compute. reflexivity.
  - exists 0%nat, Queued, Mock.worker. split; vm_compute; reflexivity.
Defined.

Lemma scan_delivers_driver_samples_witness :
  let D := Mock.driver Mock.healthy in
  let m := Mock.state (Mock.scanning Mock.healthy) in
  exists m1,
    run_Execute D 0 m = Some (tt, m1) /\
    forall m2,
      m_workers m2 !! 0%nat = m_workers m1 !! 0%nat ->
      exists m3 elems,
        run_WorkComplete D 0 m2 = Some (tt, m3)
        /\ m_calls m3 = m_calls m2 ++ [(1%nat, [VNull; VArray elems])]
        /\ length elems = 3%nat
        /\ forall i : nat, (i < 3)%nat ->
             elems !! i =
               Some (Some (sample_record
                             (sweep_scan_get_angle D 9%N (Z.of_nat i) (m_world m2),
                              sweep_scan_get_distance D 9%N (Z.of_nat i) (m_world m2)))).
Proof.
  apply (scan_delivers_driver_samples (Mock.driver Mock.healthy) 0 Mock.worker
           (Mock.state (Mock.scanning Mock.healthy)) Mock.session 9%N 0%N).
  - vm_compute. reflexivity.
  - reflexivity.
  - vm_compute. reflexivity.
  - vm_compute. reflexivity.
Defined.

Lemma scan_error_slot_witness :
  let D := Mock.driver Mock.stuck in
  let m := Mock.state (Mock.scanning Mock.stuck) in
  exists m1,
    run_Execute D 0 m = Some (tt, m1) /\
    forall m2,
      m_workers m2 !! 0%nat = m_workers m1 !! 0%nat ->
      exists m3 argv,
        run_WorkComplete D 0 m2 = Some (tt, m3)
        /\ m_calls m3 = m_calls m2 ++ [(1%nat, argv)]
        /\ argv = [VError "timed out waiting for scan"].
Proof.
  apply (scan_error_slot (Mock.driver Mock.stuck) 0 Mock.worker
           (Mock.state (Mock.scanning Mock.stuck)) Mock.session nullptr 64%N 1%N).
  - vm_compute. reflexivity.
  - reflexivity.
  - vm_compute. reflexivity.
  - vm_compute. reflexivity.
Defined.

Lemma sync_op_fails_iff_driver_error_witness :
  let D := Mock.driver Mock.stuck in
  let m := Mock.state (Mock.opened Mock.stuck) in
  exists r m',
    invoke D Mock.no_conversion reset_m (Mock.call_info []) m = Some (r, m')
    /\ (is_Some (exception r) <-> 64%N <> nullptr)
    /\ (64%N <> nullptr -> exception r = Some (VError "timed out waiting for scan"))
    /\ m_trace m' = m_trace m ++ [EvReset 7%N; EvErrorMessage 64%N; EvErrorDestruct 64%N].
Proof.
  apply (sync_op_fails_iff_driver_error (Mock.driver Mock.stuck) Mock.no_conversion
           reset_m (Mock.call_info []) (Mock.state (Mock.opened Mock.stuck))
           Mock.session).
  - reflexivity.
  - reflexivity.
  - vm_compute. reflexivity.
Defined.

Lemma getters_return_driver_value_witness :
  let D := Mock.driver Mock.healthy in
  let m := Mock.state (Mock.opened Mock.healthy) in
  (exists m',
     getMotorSpeed D (Mock.call_info []) m
       = Some (returns (VNumber (number_of_int 5)), m') /\ m_world m' = 0%N) /\
  (exists m',
     getSampleRate D (Mock.call_info []) m
       = Some (returns (VNumber (number_of_int 500)), m') /\ m_world m' = 0%N).
Proof.
  destruct (getters_return_driver_value (Mock.driver Mock.healthy) (Mock.call_info [])
              (Mock.state (Mock.opened Mock.healthy)) Mock.session)
    as [Hspeed Hrate].
  - reflexivity.
  - vm_compute. reflexivity.
  - split.
    + apply (Hspeed 5 0%N). vm_compute. reflexivity.
    + apply (Hrate 500 0%N). vm_compute. reflexivity.
Defined.

Lemma construction_failure_creates_nothing_witness :
  let D := Mock.driver Mock.absent in
  let a := Explicit "/dev/ttyUSB0" (number_of_int 115200) (number_of_int 1000) in
  let info := {| args := attempt_args a; Holder := 0%nat; This := 0%nat;
                 IsConstructCall := true |} in
  exists m',
    New D Mock.no_conversion info (boot D 0%N)
      = Some (throws (VError "device construction failed"), m')
    /\ m_wrapped m' = ∅
    /\ m_use_count m' = ∅
    /\ m_trace m' = [EvConstruct "/dev/ttyUSB0" 115200 1000].
Proof.
  apply (construction_failure_creates_nothing (Mock.driver Mock.absent)
           Mock.no_conversion
           (Explicit "/dev/ttyUSB0" (number_of_int 115200) (number_of_int 1000))
           {| args := attempt_args
                        (Explicit "/dev/ttyUSB0" (number_of_int 115200) (number_of_int 1000));
              Holder := 0%nat; This := 0%nat; IsConstructCall := true |}
           (boot (Mock.driver Mock.absent) 0%N)).
  - reflexivity.
  - vm_compute. discriminate.
Defined.

Lemma methods_leave_device_field_witness :
  let D := Mock.driver Mock.healthy in
  let m := Mock.state (Mock.opened Mock.healthy) in
  exists r m',
    invoke D Mock.no_conversion setMotorSpeed_m
      (Mock.call_info [VNumber (number_of_int 7)]) m = Some (r, m')
    /\ m_wrapped m' = m_wrapped m
    /\ m_use_count m' = m_use_count m.
Proof.
  apply (methods_leave_device_field (Mock.driver Mock.healthy) Mock.no_conversion
           setMotorSpeed_m (Mock.call_info [VNumber (number_of_int 7)])
           (Mock.state (Mock.opened Mock.healthy)) Mock.session).
  - vm_compute. reflexivity.
  - intros _. exists 7. vm_compute. reflexivity.
Defined.

(** ** Further properties at the scripted driver *)

Lemma New_rejects_bad_shape_witness :
  let D := Mock.driver Mock.healthy in
  let info := {| args := [VNumber (number_of_int 1)]; Holder := 0%nat; This := 0%nat;
                 IsConstructCall := true |} in
  New D Mock.no_conversion info (boot D 0%N)
    = Some (throws (VTypeError
        "No arguments for auto-detection or serial port, baudrate, timeout expected"),
            boot D 0%N).
Proof.
  apply (New_rejects_bad_shape (Mock.driver Mock.healthy) Mock.no_conversion
           {| args := [VNumber (number_of_int 1)]; Holder := 0%nat; This := 0%nat;
              IsConstructCall := true |}).
  - simpl. discriminate.
  - simpl. discriminate.
Defined.

Lemma construct_yields_session_witness :
  let D := Mock.driver Mock.healthy in
  exists m',
    construct D Mock.no_conversion [] (boot D 0%N) = Some (returns (VSweep 0%nat), m')
    /\ m_wrapped m' !! 0%nat = Some Mock.session
    /\ m_use_count m' !! 0%nat = Some 1%nat
    /\ (forall o', o' <> 0%nat -> m_wrapped m' !! o' = (∅ : gmap nat Sweep) !! o')
    /\ m_trace m' = [EvConstructSimple]
    /\ m_world m' = 0%N.
Proof.
  apply (construct_yields_session (Mock.driver Mock.healthy) Mock.no_conversion
           AutoDetect (boot (Mock.driver Mock.healthy) 0%N) 7%N 0%N).
  reflexivity.
Defined.

Lemma New_without_new_autodetects_witness :
  let D := Mock.driver Mock.healthy in
  let a := Explicit "/dev/ttyUSB0" (number_of_int 115200) (number_of_int 1000) in
  let info := {| args := attempt_args a; Holder := 5%nat; This := 5%nat;
                 IsConstructCall := false |} in
  exists r m',
    New D Mock.no_conversion info (boot D 0%N) = Some (r, m')
    /\ m_trace m' = [EvConstructSimple]
    /\ r = returns (VSweep 0%nat)
       /\ m_wrapped m' = <[0%nat := Mock.session]> ∅.
Proof.
  apply (New_without_new_autodetects (Mock.driver Mock.healthy) Mock.no_conversion
           (Explicit "/dev/ttyUSB0" (number_of_int 115200) (number_of_int 1000))
           {| args := attempt_args
                        (Explicit "/dev/ttyUSB0" (number_of_int 115200) (number_of_int 1000));
              Holder := 5%nat; This := 5%nat; IsConstructCall := false |}
           (boot (Mock.driver Mock.healthy) 0%N)).
  - reflexivity.
  - reflexivity.
Defined.

Lemma New_unreachable_branch_witness :
  exception (throws (VError "device construction failed"))
    <> Some (VError "Unable to create device").
Proof.
  eapply (New_unreachable_branch (Mock.driver Mock.absent) Mock.no_conversion
            {| args := []; Holder := 0%nat; This := 0%nat; IsConstructCall := true |}
            (boot (Mock.driver Mock.absent) 0%N)).
  vm_compute. reflexivity.
Defined.

Lemma bad_shape_rejected_witness :
  let D := Mock.driver Mock.healthy in
  let m := Mock.state (Mock.opened Mock.healthy) in
  exists msg,
    invoke D Mock.no_conversion getMotorSpeed_m
      (Mock.call_info [VNumber (number_of_int 1)]) m
    = Some (throws (VTypeError msg), m).
Proof.
  apply (bad_shape_rejected (Mock.driver Mock.healthy) Mock.no_conversion
           getMotorSpeed_m (Mock.call_info [VNumber (number_of_int 1)])
           (Mock.state (Mock.opened Mock.healthy)) Mock.session).
  - discriminate.
  - reflexivity.
  - vm_compute. reflexivity.
Defined.

Lemma setMotorSpeed_type_check_witness :
  exception (throws (VTypeError "Motor speed in Hz as number expected"))
    = Some (VTypeError "Motor speed in Hz as number expected")
  <-> (length (args (Mock.call_info [])) <> 1%nat
       /\ IsNumber (arg (Mock.call_info []) 0) = false).
Proof.
  eapply (setMotorSpeed_type_check (Mock.driver Mock.healthy) Mock.no_conversion
            (Mock.call_info []) (Mock.state (Mock.opened Mock.healthy)) Mock.session).
  - vm_compute. reflexivity.
  - vm_compute. reflexivity.
Defined.

Lemma setMotorSpeed_speed_is_int32_witness :
  let D := Mock.driver Mock.healthy in
  let m := Mock.state (Mock.opened Mock.healthy) in
  let n := number_of_int 5 in
  exists r m' rest hz,
    setMotorSpeed D Mock.no_conversion (Mock.call_info [VNumber n]) m = Some (r, m')
    /\ m_trace m' = m_trace m ++ EvSetMotorSpeed 7%N hz :: rest
    /\ - 2 ^ 31 <= hz < 2 ^ 31
    /\ forall k, n = number_of_int k -> - 2 ^ 31 <= k < 2 ^ 31 -> hz = k.
Proof.
  apply (setMotorSpeed_speed_is_int32 (Mock.driver Mock.healthy) Mock.no_conversion
           (Mock.call_info [VNumber (number_of_int 5)])
           (Mock.state (Mock.opened Mock.healthy)) Mock.session (number_of_int 5)).
  - vm_compute. reflexivity.
  - reflexivity.
Defined.

Lemma scan_queues_one_worker_witness :
  let D := Mock.driver Mock.healthy in
  let m := Mock.state (Mock.opened Mock.healthy) in
  exists m',
    scan D Mock.no_conversion
      (Mock.call_info [VNumber (number_of_int 1000); VFunction 1]) m
      = Some (returns VUndefined, m')
    /\ m_trace m' = m_trace m
    /\ m_world m' = m_world m
    /\ m_calls m' = m_calls m
    /\ m_workers m' !! 0%nat = Some (Queued, Mock.worker)
    /\ (forall id, id <> 0%nat -> m_workers m' !! id = m_workers m !! id)
    /\ m_next_worker m' = 1%nat.
Proof.
  apply (scan_queues_one_worker (Mock.driver Mock.healthy) Mock.no_conversion
           (Mock.call_info [VNumber (number_of_int 1000); VFunction 1])
           (Mock.state (Mock.opened Mock.healthy)) Mock.session
           (number_of_int 1000) 1%nat).
  - vm_compute. reflexivity.
  - reflexivity.
Defined.

Lemma Execute_reads_one_scan_witness :
  let D := Mock.driver Mock.stuck in
  let m := Mock.state (Mock.scanning Mock.stuck) in
  exists m1 w',
    run_Execute D 0 m = Some (tt, m1)
    /\ m_workers m1 !! 0%nat = Some (Executed, w')
    /\ AsyncScanWorker.scan w' = nullptr
    /\ AsyncScanWorker.callback w' = 1%nat
    /\ AsyncScanWorker.errmsg w' = Some "timed out waiting for scan"%string
    /\ m_calls m1 = m_calls m
    /\ m_trace m1 = m_trace m ++
         [EvGetScan 7%N 1000; EvErrorMessage 64%N; EvErrorDestruct 64%N].
Proof.
  apply (Execute_reads_one_scan (Mock.driver Mock.stuck) 0 Mock.worker
           (Mock.state (Mock.scanning Mock.stuck)) Mock.session).
  - vm_compute. reflexivity.
  - vm_compute. reflexivity.
Defined.


(** [new Sweep()], [scan(1000, f1)], then the thread pool runs the worker. *)
Lemma sessions_own_their_device_witness :
  let D := Mock.driver Mock.healthy in
  let acts := [ANew {| args := []; Holder := 0%nat; This := 0%nat; IsConstructCall := true |};
               AMethod scan_m (Mock.call_info [VNumber (number_of_int 1000); VFunction 1]);
               AExecute 0] in
  let m := Mock.state (s := Mock.healthy)
             (snd <$> run D Mock.no_conversion acts (boot D 0%N)) in
  m_use_count m !! sp_ctrl (device Mock.session) = Some 1%nat
  /\ forall o' s', m_wrapped m !! o' = Some s' -> o' <> 0%nat ->
       sp_ctrl (device s') <> sp_ctrl (device Mock.session).
Proof.
  apply (sessions_own_their_device (Mock.driver Mock.healthy) Mock.no_conversion
           [ANew {| args := []; Holder := 0%nat; This := 0%nat; IsConstructCall := true |};
            AMethod scan_m (Mock.call_info [VNumber (number_of_int 1000); VFunction 1]);
            AExecute 0] 0%N).
  - vm_compute. reflexivity.
  - vm_compute. reflexivity.
Defined.

Lemma finalize_spares_other_sessions_witness :
  let D := Mock.driver Mock.healthy in
  let acts := [ANew {| args := []; Holder := 0%nat; This := 0%nat; IsConstructCall := true |};
               ANew {| args := []; Holder := 1%nat; This := 1%nat; IsConstructCall := true |}] in
  let m := Mock.state (s := Mock.healthy)
             (snd <$> run D Mock.no_conversion acts (boot D 0%N)) in
  exists m',
    Sweep_finalize D 0%nat m = Some (tt, m')
    /\ m_trace m' = m_trace m ++ [EvDestruct 7%N]
    /\ m_wrapped m' !! 0%nat = None
    /\ forall o' s', o' <> 0%nat -> m_wrapped m !! o' = Some s' ->
         m_wrapped m' !! o' = Some s'
         /\ m_use_count m' !! sp_ctrl (device s') = Some 1%nat.
Proof.
  apply (finalize_spares_other_sessions (Mock.driver Mock.healthy) Mock.no_conversion
           [ANew {| args := []; Holder := 0%nat; This := 0%nat; IsConstructCall := true |};
            ANew {| args := []; Holder := 1%nat; This := 1%nat; IsConstructCall := true |}]
           0%N _ 0%nat Mock.session).
  - vm_compute. reflexivity.
  - vm_compute. reflexivity.
Defined.

Lemma commands_in_issue_order_witness :
  let D := Mock.driver Mock.healthy in
  let m := Mock.state (Mock.opened Mock.healthy) in
  let cmds := [(startScanning_m, []);
               (setMotorSpeed_m, [VNumber (number_of_int 5)]);
               (getMotorSpeed_m, [])] in
  exists rs m' added,
    run_commands D Mock.no_conversion 0%nat cmds m = Some (rs, m')
    /\ length rs = 3%nat
    /\ m_trace m' = m_trace m ++ added
    /\ List.filter is_command added
       = [EvStartScanning 7%N; EvSetMotorSpeed 7%N 5; EvGetMotorSpeed 7%N].
Proof.
  apply (commands_in_issue_order (Mock.driver Mock.healthy) Mock.no_conversion 0%nat
           [(startScanning_m, []);
            (setMotorSpeed_m, [VNumber (number_of_int 5)]);
            (getMotorSpeed_m, [])]
           (Mock.state (Mock.opened Mock.healthy)) Mock.session).
  - vm_compute. reflexivity.
  - repeat constructor.
Defined.

Lemma methods_address_constructed_device_witness :
  let D := Mock.driver Mock.healthy in
  exists m1 r m2 rest,
    construct D Mock.no_conversion [] (boot D 0%N) = Some (returns (VSweep 0%nat), m1)
    /\ invoke D Mock.no_conversion reset_m (method_call 0%nat []) m1 = Some (r, m2)
    /\ m_trace m2 = [EvConstructSimple; EvReset 7%N] ++ rest.
Proof.
  apply (methods_address_constructed_device (Mock.driver Mock.healthy)
           Mock.no_conversion AutoDetect reset_m []
           (boot (Mock.driver Mock.healthy) 0%N) 7%N 0%N).
  - reflexivity.
  - reflexivity.
  - reflexivity.
Defined.

Lemma empty_scan_delivers_empty_array_witness :
  let D := Mock.driver Mock.stuck in
  let m := Mock.state (Mock.scanning Mock.stuck) in
  exists m',
    WorkComplete D Mock.worker m = Some (tt, m')
    /\ m_calls m' = m_calls m ++ [(1%nat, [VNull; VArray []])]
    /\ m_trace m' = m_trace m ++ [EvNumberOfSamples nullptr].
Proof.
  apply (empty_scan_delivers_empty_array (Mock.driver Mock.stuck) Mock.worker
           (Mock.state (Mock.scanning Mock.stuck))).
  - reflexivity.
  - vm_compute. discriminate.
Defined.
